(** * TaskList: the task-list state and interaction engine

    A shallow embedding of [frontend/src/TaskList.tsx]: the filter over
    the task collection, the handlers that talk to the remote API
    (load, create, status change, delete, drag end), the draft editor
    flags and the view-mode/URL mirror, followed by the properties of
    the specification that concern them. *)

From Stdlib Require Import ZArith NArith List Bool Lia String Ascii Permutation DecimalZ.
Import ListNotations.
Local Open Scope N_scope.
Local Open Scope list_scope.

(** ** JavaScript built-ins used by the component *)

Module Js.

(** A JavaScript string is a sequence of UTF-16 code units. *)
Definition jsstring := list N.

(** Literals of the source, written with 8-bit characters. *)
Fixpoint str (s : string) : jsstring :=
  match s with
  | EmptyString => []
  | String c s' => N_of_ascii c :: str s'
  end.

(** [a === b] on strings. *)
Fixpoint eqb (a b : jsstring) : bool :=
  match a, b with
  | [], [] => true
  | x :: a', y :: b' => (x =? y) && eqb a' b'
  | _, _ => false
  end.

(** [s.startsWith(p)]. *)
Fixpoint startsWith (s p : jsstring) : bool :=
  match p, s with
  | [], _ => true
  | _ :: _, [] => false
  | y :: p', x :: s' => (x =? y) && startsWith s' p'
  end.

(** [s.includes(p)]: [p] occurs in [s] at some position. *)
Fixpoint includes (s p : jsstring) : bool :=
  startsWith s p ||
  match s with
  | [] => false
  | _ :: s' => includes s' p
  end.

(** White space and line terminators, the code units that
    [String.prototype.trim] strips. *)
Definition isWhiteSpace (c : N) : bool :=
  (c =? 9) || (c =? 10) || (c =? 11) || (c =? 12) || (c =? 13) ||
  (c =? 32) || (c =? 160) || (c =? 5760) ||
  ((8192 <=? c) && (c <=? 8202)) ||
  (c =? 8232) || (c =? 8233) || (c =? 8239) || (c =? 8287) ||
  (c =? 12288) || (c =? 65279).

Fixpoint trimStart (s : jsstring) : jsstring :=
  match s with
  | [] => []
  | c :: s' => if isWhiteSpace c then trimStart s' else s
  end.

Definition trimEnd (s : jsstring) : jsstring := rev (trimStart (rev s)).

(** [s.trim()]. *)
Definition trim (s : jsstring) : jsstring := trimEnd (trimStart s).

(** Truthiness of a string: only the empty string is falsy. *)
Definition truthy (s : jsstring) : bool :=
  match s with [] => false | _ :: _ => true end.

Fixpoint digits (u : Decimal.uint) : jsstring :=
  match u with
  | Decimal.Nil => []
  | Decimal.D0 u => 48 :: digits u
  | Decimal.D1 u => 49 :: digits u
  | Decimal.D2 u => 50 :: digits u
  | Decimal.D3 u => 51 :: digits u
  | Decimal.D4 u => 52 :: digits u
  | Decimal.D5 u => 53 :: digits u
  | Decimal.D6 u => 54 :: digits u
  | Decimal.D7 u => 55 :: digits u
  | Decimal.D8 u => 56 :: digits u
  | Decimal.D9 u => 57 :: digits u
  end.

(** [n.toString()] for an integer [n]: its decimal digits, with a
    leading minus sign when negative. *)
Definition Number_toString (n : Z) : jsstring :=
  match Z.to_int n with
  | Decimal.Pos u => digits u
  | Decimal.Neg u => 45 :: digits u
  end.

(** Lower-casing restricted to the ASCII letters; it agrees with
    [String.prototype.toLowerCase] on strings of ASCII code units and
    serves as the concrete instance in the examples below. *)
Definition asciiLower (s : jsstring) : jsstring :=
  map (fun c => if (65 <=? c) && (c <=? 90) then c + 32 else c) s.

(** *** URLSearchParams

    The query string is kept in parsed form: the list of its
    name/value pairs, in order, duplicates included. *)
Definition URLSearchParams := list (jsstring * jsstring).

(** [params.get(k)]: the value of the first pair named [k], else null. *)
Fixpoint get (k : jsstring) (ps : URLSearchParams) : option jsstring :=
  match ps with
  | [] => None
  | (k', v) :: ps' => if eqb k' k then Some v else get k ps'
  end.

(** [params.getAll(k)]. *)
Definition getAll (k : jsstring) (ps : URLSearchParams) : list jsstring :=
  map snd (filter (fun p => eqb (fst p) k) ps).

(** [params.set(k, v)]: the first pair named [k] takes the value [v]
    and the later pairs named [k] are removed; without such a pair,
    [(k, v)] is appended. *)
Fixpoint set (k v : jsstring) (ps : URLSearchParams) : URLSearchParams :=
  match ps with
  | [] => [(k, v)]
  | (k', v') :: ps' =>
      if eqb k' k
      then (k', v) :: filter (fun p => negb (eqb (fst p) k)) ps'
      else (k', v') :: set k v ps'
  end.

End Js.

Import Js.

(** ** Data model *)

(** [type StatusType = Task["status"]], the three literals
    '未着手' | '進行中' | '完了'. *)
Inductive StatusType : Type :=
| NotStarted  (* 未着手 *)
| InProgress  (* 進行中 *)
| Done.       (* 完了 *)

Definition StatusType_eqb (a b : StatusType) : bool :=
  match a, b with
  | NotStarted, NotStarted | InProgress, InProgress | Done, Done => true
  | _, _ => false
  end.

Definition ALL_STATUSES : list StatusType := [NotStarted; InProgress; Done].

(** [Task], as the component uses it. *)
Record Task : Type := mkTask {
  id : Z;
  name : jsstring;
  details : jsstring;
  status : StatusType;
  updated_at : jsstring
}.

(** The object literal [{ name, details, status }] sent with a create or
    an update call. *)
Record Payload : Type := mkPayload {
  p_name : jsstring;
  p_details : jsstring;
  p_status : StatusType
}.

(** The drag-end result of the board: the dragged card and the columns
    it left and reached.  Droppables are rendered for [ALL_STATUSES]
    only, so a droppable id is a status. *)
Record DraggableLocation : Type := mkLocation {
  droppableId : StatusType;
  index : nat
}.

Record DropResult : Type := mkDropResult {
  draggableId : jsstring;
  source : DraggableLocation;
  destination : option DraggableLocation
}.

(** ** The remote API

    The module [./api] is an external collaborator: four asynchronous
    operations, each of which resolves with a value or rejects with an
    error.  It is a parameter of the development: a deterministic
    server with a state of its own. *)

Inductive response (E A : Type) : Type :=
| Resolved (a : A)
| Rejected (e : E).
Arguments Resolved {E A} a.
Arguments Rejected {E A} e.

Definition isRejected {E A} (r : response E A) : bool :=
  match r with Resolved _ => false | Rejected _ => true end.

Record Api (E R : Type) : Type := mkApi {
  fetchTasks : R -> response E (option (list Task)) * R;
  createTask : Payload -> R -> response E Task * R;
  updateTask : Z -> Payload -> R -> response E Task * R;
  deleteTask : Z -> R -> response E unit * R
}.
Arguments fetchTasks {E R} _ _.
Arguments createTask {E R} _ _ _.
Arguments updateTask {E R} _ _ _ _.
Arguments deleteTask {E R} _ _ _.

(** A remote call, as it appears in the trace of issued calls. *)
Inductive Call : Type :=
| FetchTasks
| CreateTask (p : Payload)
| UpdateTask (i : Z) (p : Payload)
| DeleteTask (i : Z).

(** The four messages the component passes to [console.error]. *)
Inductive LogMessage : Type :=
| FetchFailed         (* "タスク取得に失敗" *)
| CreateFailed        (* "タスク作成に失敗" *)
| StatusUpdateFailed  (* "ステータス更新に失敗" *)
| DeleteFailed.       (* "タスク削除に失敗" *)

(** *** A small in-memory server

    Used for the concrete runs below: while [online] it keeps the tasks
    in [store]; while offline every operation rejects. *)

Inductive DemoError : Type := Offline.

Record Demo : Type := mkDemo {
  store : list Task;
  online : bool
}.

Definition demoCreate (p : Payload) (r : Demo) : response DemoError Task * Demo :=
  if online r then
    let t := mkTask (Z.of_nat (List.length (store r)) + 1)
                    (p_name p) (p_details p) (p_status p) [] in
    (Resolved t, mkDemo (store r ++ [t]) true)
  else (Rejected Offline, r).

Definition demoUpdate (i : Z) (p : Payload) (r : Demo) : response DemoError Task * Demo :=
  if online r then
    let t := mkTask i (p_name p) (p_details p) (p_status p) [] in
    (Resolved t,
     mkDemo (map (fun u => if Z.eqb (id u) i then t else u) (store r)) true)
  else (Rejected Offline, r).

Definition demoApi : Api DemoError Demo := {|
  fetchTasks r :=
    if online r then (Resolved (Some (store r)), r) else (Rejected Offline, r);
  createTask := demoCreate;
  updateTask := demoUpdate;
  deleteTask i r :=
    if online r
    then (Resolved tt, mkDemo (filter (fun u => negb (Z.eqb (id u) i)) (store r)) true)
    else (Rejected Offline, r)
|}.

(** ** Component state *)

(** The [useState] cells of [TaskList]. *)
Record State : Type := mkState {
  viewMode : jsstring;
  tasks : list Task;
  showSearch : bool;
  filterText : jsstring;
  selectedStatuses : list StatusType;
  showStatusDropdown : bool;
  newTaskName : jsstring;
  newTaskDetails : jsstring;
  editingNewTask : bool
}.

Definition setViewMode (v : jsstring) (s : State) : State :=
  mkState v (tasks s) (showSearch s) (filterText s) (selectedStatuses s)
          (showStatusDropdown s) (newTaskName s) (newTaskDetails s) (editingNewTask s).

Definition setTasks (v : list Task) (s : State) : State :=
  mkState (viewMode s) v (showSearch s) (filterText s) (selectedStatuses s)
          (showStatusDropdown s) (newTaskName s) (newTaskDetails s) (editingNewTask s).

Definition setFilterText (v : jsstring) (s : State) : State :=
  mkState (viewMode s) (tasks s) (showSearch s) v (selectedStatuses s)
          (showStatusDropdown s) (newTaskName s) (newTaskDetails s) (editingNewTask s).

Definition setSelectedStatuses (v : list StatusType) (s : State) : State :=
  mkState (viewMode s) (tasks s) (showSearch s) (filterText s) v
          (showStatusDropdown s) (newTaskName s) (newTaskDetails s) (editingNewTask s).

Definition setNewTaskName (v : jsstring) (s : State) : State :=
  mkState (viewMode s) (tasks s) (showSearch s) (filterText s) (selectedStatuses s)
          (showStatusDropdown s) v (newTaskDetails s) (editingNewTask s).

Definition setNewTaskDetails (v : jsstring) (s : State) : State :=
  mkState (viewMode s) (tasks s) (showSearch s) (filterText s) (selectedStatuses s)
          (showStatusDropdown s) (newTaskName s) v (editingNewTask s).

Definition setEditingNewTask (v : bool) (s : State) : State :=
  mkState (viewMode s) (tasks s) (showSearch s) (filterText s) (selectedStatuses s)
          (showStatusDropdown s) (newTaskName s) (newTaskDetails s) v.

(** [initialView]: [(params.get("view") as "table" | "board") || "table"].
    The cast is a compile-time annotation only; at run time the value of
    the parameter is used whenever it is a non-empty string. *)
Definition initialView (params : URLSearchParams) : jsstring :=
  match get (str "view") params with
  | Some v => if truthy v then v else str "table"
  | None => str "table"
  end.

(** The state of the component when it mounts on a URL whose query is
    [search]. *)
Definition mount (search : URLSearchParams) : State :=
  mkState (initialView search) [] false [] [] false [] [] false.

(** The layout chosen by the render: [viewMode === "table" ? table : board]. *)
Inductive Layout : Type := TableLayout | BoardLayout.

Definition layout (s : State) : Layout :=
  if eqb (viewMode s) (str "table") then TableLayout else BoardLayout.

(** [toggleStatus]. *)
Definition toggleStatus (st : StatusType) (s : State) : State :=
  if existsb (StatusType_eqb st) (selectedStatuses s)
  then setSelectedStatuses
         (filter (fun x => negb (StatusType_eqb x st)) (selectedStatuses s)) s
  else setSelectedStatuses (selectedStatuses s ++ [st]) s.

(** ** The component *)

Section Component.

(** [String.prototype.toLowerCase] is a built-in whose full Unicode
    behaviour is not reproduced here; the development is parametric
    in it.  [Js.asciiLower] is one instance. *)
Variable toLowerCase : jsstring -> jsstring.

(** The errors the API rejects with, the state of the server, and the
    API itself. *)
Variables (Err Server : Type).
Variable api : Api Err Server.

(** *** The filter *)

Definition filteredTasks (s : State) : list Task :=
  filter (fun task =>
    let matchText :=
      includes (toLowerCase (name task)) (toLowerCase (filterText s)) ||
      includes (toLowerCase (details task)) (toLowerCase (filterText s)) in
    let matchStatus :=
      Nat.eqb (List.length (selectedStatuses s)) 0 ||
      existsb (fun x => StatusType_eqb x (status task)) (selectedStatuses s) in
    matchText && matchStatus) (tasks s).

(** *** Handlers as state-and-exception computations

    A handler runs against the component state, the URL query, the
    server, the trace of remote calls issued so far and the console
    log.  It either returns or throws (a rejected promise that nobody
    catches).  Each [await] is run to completion before the handler
    continues: one gesture, with the reload it triggers, is one run. *)

Record World : Type := mkWorld {
  ui : State;
  search : URLSearchParams;
  server : Server;
  calls : list Call;
  console : list (LogMessage * Err)
}.

Inductive outcome (A : Type) : Type :=
| Returned (a : A)
| Thrown (e : Err).
Arguments Returned {A} a.
Arguments Thrown {A} e.

Definition M (A : Type) : Type := World -> outcome A * World.

Definition ret {A} (a : A) : M A := fun w => (Returned a, w).

Definition bind {A B} (c : M A) (k : A -> M B) : M B :=
  fun w =>
    match c w with
    | (Returned a, w') => k a w'
    | (Thrown e, w') => (Thrown e, w')
    end.

(** [try { body } catch (error) { handler }]. *)
Definition try_catch {A} (body : M A) (handler : Err -> M A) : M A :=
  fun w =>
    match body w with
    | (Returned a, w') => (Returned a, w')
    | (Thrown e, w') => handler e w'
    end.

Notation "x <- c1 ;; c2" := (bind c1 (fun x => c2))
  (at level 61, c1 at next level, right associativity).
Notation "c1 ;; c2" := (bind c1 (fun _ => c2))
  (at level 61, right associativity).

(** The state cells as the handler's closure sees them. *)
Definition render : M State := fun w => (Returned (ui w), w).

(** A [setX(v)] call. *)
Definition update (f : State -> State) : M unit :=
  fun w => (Returned tt,
            mkWorld (f (ui w)) (search w) (server w) (calls w) (console w)).

(** An awaited API call: the call is recorded, the server answers. *)
Definition await {A} (c : Call) (op : Server -> response Err A * Server) : M A :=
  fun w =>
    let (r, srv) := op (server w) in
    let w' := mkWorld (ui w) (search w) srv (calls w ++ [c]) (console w) in
    match r with
    | Resolved a => (Returned a, w')
    | Rejected e => (Thrown e, w')
    end.

Definition console_error (m : LogMessage) (e : Err) : M unit :=
  fun w => (Returned tt,
            mkWorld (ui w) (search w) (server w) (calls w) (console w ++ [(m, e)])).

(** [navigate({ search }, { replace: true })]. *)
Definition navigate (newParams : URLSearchParams) : M unit :=
  fun w => (Returned tt,
            mkWorld (ui w) newParams (server w) (calls w) (console w)).

(** The effect on [viewMode]: mirror it into the URL. *)
Definition viewModeEffect : M unit :=
  s <- render ;;
  fun w =>
    let newParams := set (str "view") (viewMode s) (search w) in
    navigate newParams w.

(** The two view buttons: [setViewMode(v)], then the effect. *)
Definition clickViewMode (v : jsstring) : M unit :=
  update (setViewMode v) ;; viewModeEffect.

Definition loadTasks : M unit :=
  try_catch
    (data <- await FetchTasks (fetchTasks api) ;;
     (* setTasks(data || []) *)
     update (setTasks (match data with Some d => d | None => [] end)))
    (fun error =>
       console_error FetchFailed error ;;
       update (setTasks [])).

Definition handleCreate : M unit :=
  s <- render ;;
  if negb (truthy (trim (newTaskName s))) then
    update (setEditingNewTask false)
  else
    try_catch
      (let p := mkPayload (trim (newTaskName s)) (trim (newTaskDetails s)) NotStarted in
       _ <- await (CreateTask p) (createTask api p) ;;
       update (setNewTaskName []) ;;
       update (setNewTaskDetails []) ;;
       update (setEditingNewTask false) ;;
       loadTasks)
      (fun error => console_error CreateFailed error).

Definition handleStatusChange (task : Task) (newStatus : StatusType) : M unit :=
  try_catch
    (let p := mkPayload (name task) (details task) newStatus in
     _ <- await (UpdateTask (id task) p) (updateTask api (id task) p) ;;
     loadTasks)
    (fun error => console_error StatusUpdateFailed error).

(** [handleDelete]; the [e.stopPropagation()] on the click event has
    no effect on the modelled state. *)
Definition handleDelete (i : Z) : M unit :=
  try_catch
    (_ <- await (DeleteTask i) (deleteTask api i) ;;
     loadTasks)
    (fun error => console_error DeleteFailed error).

Definition handleKeyDown (key : jsstring) : M unit :=
  if eqb key (str "Enter") then handleCreate else ret tt.

(** The cancel button of the draft row. *)
Definition cancelNewTask : M unit :=
  update (setEditingNewTask false) ;;
  update (setNewTaskName []) ;;
  update (setNewTaskDetails []).

Definition handleDragEnd (result : DropResult) : M unit :=
  match destination result with
  | None => ret tt
  | Some dest =>
      if StatusType_eqb (droppableId dest) (droppableId (source result))
      then ret tt
      else
        s <- render ;;
        match find (fun t => eqb (Number_toString (id t)) (draggableId result))
                   (filteredTasks s) with
        | Some taskToUpdate =>
            let p := mkPayload (name taskToUpdate) (details taskToUpdate)
                               (droppableId dest) in
            _ <- await (UpdateTask (id taskToUpdate) p)
                       (updateTask api (id taskToUpdate) p) ;;
            loadTasks
        | None => ret tt
        end
  end.

(** *** Vocabulary of the specification *)

(** "[q] is a case-insensitive substring of [x]": the lower-cased
    query occurs somewhere in the lower-cased text. *)
Definition ci_substring (q x : jsstring) : Prop :=
  exists a b, toLowerCase x = a ++ toLowerCase q ++ b.

(** The draft editor is [Idle] exactly when the draft row is not
    being edited. *)
Definition Idle (s : State) : Prop := editingNewTask s = false.
Definition Editing (s : State) : Prop := editingNewTask s = true.

(** *** The rest of the component: toolbar, board and event wiring *)

Definition setShowSearch (v : bool) (s : State) : State :=
  mkState (viewMode s) (tasks s) v (filterText s) (selectedStatuses s)
          (showStatusDropdown s) (newTaskName s) (newTaskDetails s) (editingNewTask s).

Definition setShowStatusDropdown (v : bool) (s : State) : State :=
  mkState (viewMode s) (tasks s) (showSearch s) (filterText s) (selectedStatuses s)
          v (newTaskName s) (newTaskDetails s) (editingNewTask s).

(** [statusFilterLabel]: "すべて" when nothing or as many statuses as
    exist are selected, else [`${selectedStatuses.length}件選択中`]. *)
Definition statusFilterLabel (s : State) : jsstring :=
  if Nat.eqb (List.length (selectedStatuses s)) 0 ||
     Nat.eqb (List.length (selectedStatuses s)) (List.length ALL_STATUSES)
  then [12377; 12409; 12390]
  else Number_toString (Z.of_nat (List.length (selectedStatuses s)))
         ++ [20214; 36984; 25246; 20013].

(** [tasksInStatus], the cards of one column of the board. *)
Definition tasksInStatus (s : State) (st : StatusType) : list Task :=
  filter (fun t => StatusType_eqb (status t) st) (filteredTasks s).

(** The board: one droppable per status, in the order of
    [ALL_STATUSES], each with its cards. *)
Definition boardColumns (s : State) : list (StatusType * list Task) :=
  map (fun st => (st, tasksInStatus s st)) ALL_STATUSES.

(** The two effects of the component as they run at mount: the first
    load, and the mirror of the view mode into the URL. *)
Definition mountEffects : M unit :=
  loadTasks ;; viewModeEffect.

(** The component mounted on a URL whose query is [search0], against a
    server in state [srv]. *)
Definition mounted (search0 : URLSearchParams) (srv : Server) : World :=
  snd (mountEffects (mkWorld (mount search0) search0 srv [] [])).

(** The URL mirrors the view mode: its [view] parameter is the mode
    held in the state. *)
Definition mirrored (w : World) : Prop :=
  get (str "view") (search w) = Some (viewMode (ui w)).

(** The gestures the rendered component reacts to, one per event
    handler of the markup.  (A click on a row or a card navigates to
    the detail page and leaves the component; it is not a gesture
    here.) *)
Inductive Gesture : Type :=
| ClickTable
| ClickBoard
| ClickOpenSearch
| ClickCloseSearch
| ChangeFilterText (v : jsstring)
| ClickStatusDropdown
| ChangeStatusCheckbox (st : StatusType)
| ClickClearStatuses
| ClickCloseDropdown
| ChangeTaskStatus (task : Task) (st : StatusType)
| ClickDelete (i : Z)
| ClickAddRow
| ChangeNewTaskName (v : jsstring)
| ChangeNewTaskDetails (v : jsstring)
| KeyDown (key : jsstring)
| ClickConfirm
| ClickCancel
| DragEnd (result : DropResult).

(** The handler each gesture is wired to. *)
Definition step (g : Gesture) : M unit :=
  match g with
  | ClickTable => clickViewMode (str "table")
  | ClickBoard => clickViewMode (str "board")
  | ClickOpenSearch => update (setShowSearch true)
  | ClickCloseSearch => update (setShowSearch false)
  | ChangeFilterText v => update (setFilterText v)
  | ClickStatusDropdown =>
      s <- render ;; update (setShowStatusDropdown (negb (showStatusDropdown s)))
  | ChangeStatusCheckbox st => update (toggleStatus st)
  | ClickClearStatuses => update (setSelectedStatuses [])
  | ClickCloseDropdown => update (setShowStatusDropdown false)
  | ChangeTaskStatus task st => handleStatusChange task st
  | ClickDelete i => handleDelete i
  | ClickAddRow => update (setEditingNewTask true)
  | ChangeNewTaskName v => update (setNewTaskName v)
  | ChangeNewTaskDetails v => update (setNewTaskDetails v)
  | KeyDown key => handleKeyDown key
  | ClickConfirm => handleCreate
  | ClickCancel => cancelNewTask
  | DragEnd result => handleDragEnd result
  end.

(** A sequence of gestures, each run to completion before the next; a
    rejection nobody caught does not stop the component. *)
Fixpoint run (gs : list Gesture) (w : World) : World :=
  match gs with
  | [] => w
  | g :: gs' => run gs' (snd (step g w))
  end.

End Component.

Arguments mkWorld {Err Server} ui search server calls console.
Arguments ui {Err Server} w.
Arguments search {Err Server} w.
Arguments server {Err Server} w.
Arguments calls {Err Server} w.
Arguments console {Err Server} w.
Arguments Returned {Err A} a.
Arguments Thrown {Err A} e.
Arguments ret {Err Server A} a w.
Arguments bind {Err Server A B} c k w.
Arguments try_catch {Err Server A} body handler w.
Arguments render {Err Server} w.
Arguments update {Err Server} f w.
Arguments await {Err Server A} c op w.
Arguments console_error {Err Server} m e w.
Arguments navigate {Err Server} newParams w.
Arguments viewModeEffect {Err Server} w.
Arguments clickViewMode {Err Server} v w.
Arguments loadTasks {Err Server} api w.
Arguments handleCreate {Err Server} api w.
Arguments handleStatusChange {Err Server} api task newStatus w.
Arguments handleDelete {Err Server} api i w.
Arguments handleKeyDown {Err Server} api key w.
Arguments cancelNewTask {Err Server} w.
Arguments handleDragEnd toLowerCase {Err Server} api result w.
Arguments mountEffects {Err Server} api w.
Arguments mirrored {Err Server} w.
Arguments mounted {Err Server} api search0 srv.
Arguments step toLowerCase {Err Server} api g w.
Arguments run toLowerCase {Err Server} api gs w.

(** ** Concrete data for the runs below *)

Definition task1 : Task :=
  mkTask 1 (str "Write spec") [] NotStarted [].

Definition task2 : Task :=
  mkTask 2 (str "Review") (str "code review") Done [].

(** The board with two tasks loaded and no filter. *)
Definition board0 : State :=
  mkState (str "board") [task1; task2] false [] [] false [] [] false.

(** The same, with the filter set to the status 完了 only: [task1] is
    hidden. *)
Definition boardDone : State := setSelectedStatuses [Done] board0.

(** The draft row open with a name and details typed in. *)
Definition drafting : State :=
  setEditingNewTask true
    (setNewTaskDetails (str " soon ") (setNewTaskName (str "  Review  ") board0)).

(** The draft row open with a blank name and some details. *)
Definition draftingBlank : State :=
  setEditingNewTask true
    (setNewTaskDetails (str "soon") (setNewTaskName (str "   ") board0)).

Definition world (s : State) (up : bool) : World DemoError Demo :=
  mkWorld s [(str "q", str "x"); (str "view", str "board")]
          (mkDemo [task1; task2] up) [] [].

(** Card 1 dragged from 未着手 to 完了. *)
Definition dragToDone : DropResult :=
  mkDropResult (str "1") (mkLocation NotStarted 0) (Some (mkLocation Done 0)).

(** Card 1 dropped back on its own column, and dropped outside. *)
Definition dragSameColumn : DropResult :=
  mkDropResult (str "1") (mkLocation NotStarted 0) (Some (mkLocation NotStarted 1)).

Definition dragOutside : DropResult :=
  mkDropResult (str "1") (mkLocation NotStarted 0) None.

(** All three statuses ticked, in the order of the clicks. *)
Definition boardFull : State :=
  setSelectedStatuses [Done; NotStarted; InProgress] board0.

(** ** Properties *)

Section Properties.

Variable toLowerCase : jsstring -> jsstring.
Variables (Err Server : Type).
Variable api : Api Err Server.


(** *** Strings *)

Lemma eqb_eq (a b : jsstring) : eqb a b = true <-> a = b.
Proof.
  revert b; induction a as [|x a IH]; intros [|y b]; simpl;
    try (split; [discriminate | congruence]).
  - split; reflexivity.
  - rewrite andb_true_iff, N.eqb_eq, IH.
    split; [intros [-> ->]; reflexivity | intros H; injection H; auto].
Qed.

Lemma eqb_refl (a : jsstring) : eqb a a = true.
Proof. apply eqb_eq; reflexivity. Qed.

Lemma eqb_neq (a b : jsstring) : eqb a b = false <-> a <> b.
Proof.
  rewrite <- eqb_eq. destruct (eqb a b); split; congruence.
Qed.

Lemma startsWith_spec (s p : jsstring) :
  startsWith s p = true <-> exists b, s = p ++ b.
Proof.
  revert s; induction p as [|y p IH]; intros [|x s]; simpl.
  - split; [intros _; exists []; reflexivity | reflexivity].
  - split; [intros _; exists (x :: s); reflexivity | reflexivity].
  - split; [discriminate | intros [b Hb]; discriminate].
  - rewrite andb_true_iff, N.eqb_eq, IH. split.
    + intros [-> [b ->]]. exists b; reflexivity.
    + intros [b Hb]. injection Hb as -> ->. split; [reflexivity | eauto].
Qed.

Lemma includes_spec (s p : jsstring) :
  includes s p = true <-> exists a b, s = a ++ p ++ b.
Proof.
  induction s as [|x s IH].
  - cbn [includes]. rewrite orb_false_r, startsWith_spec. split.
    + intros [b Hb]. exists [], b. exact Hb.
    + intros [a [b Hab]]. destruct a; [exists b; exact Hab | discriminate].
  - cbn [includes]. rewrite orb_true_iff, startsWith_spec, IH. split.
    + intros [[b Hb] | [a [b Hab]]].
      * exists [], b. exact Hb.
      * exists (x :: a), b. rewrite Hab. reflexivity.
    + intros [[|c a] [b Hab]].
      * left. exists b. exact Hab.
      * right. injection Hab as _ Hab. exists a, b. exact Hab.
Qed.

Lemma includes_empty (s : jsstring) : includes s [] = true.
Proof. apply includes_spec. exists [], s. reflexivity. Qed.

(** *** URL parameters *)

Lemma filter_other_set (k v : jsstring) (ps : URLSearchParams) :
  filter (fun p => negb (eqb (fst p) k)) (set k v ps) =
  filter (fun p => negb (eqb (fst p) k)) ps.
Proof.
  induction ps as [|[k' v'] ps IH]; simpl.
  - rewrite eqb_refl. reflexivity.
  - destruct (eqb k' k) eqn:E; simpl; rewrite E; simpl.
    + clear IH. induction ps as [|q ps IH]; simpl; [reflexivity|].
      destruct (eqb (fst q) k) eqn:F; simpl; rewrite ?F; simpl; congruence.
    + rewrite IH. reflexivity.
Qed.

Lemma get_set_same (k v : jsstring) (ps : URLSearchParams) :
  get k (set k v ps) = Some v.
Proof.
  induction ps as [|[k' v'] ps IH]; simpl.
  - rewrite eqb_refl. reflexivity.
  - destruct (eqb k' k) eqn:E; simpl; rewrite E; [reflexivity | exact IH].
Qed.

Lemma get_filter_other (k j : jsstring) (ps : URLSearchParams) :
  j <> k ->
  get j (filter (fun p => negb (eqb (fst p) k)) ps) = get j ps.
Proof.
  intros Hjk. induction ps as [|[k' v'] ps IH]; simpl; [reflexivity|].
  destruct (eqb k' k) eqn:E; simpl.
  - apply eqb_eq in E. subst k'.
    destruct (eqb k j) eqn:F; [apply eqb_eq in F; congruence | exact IH].
  - destruct (eqb k' j); [reflexivity | exact IH].
Qed.

Lemma get_set_other (k j v : jsstring) (ps : URLSearchParams) :
  j <> k -> get j (set k v ps) = get j ps.
Proof.
  intros Hjk. induction ps as [|[k' v'] ps IH]; simpl.
  - destruct (eqb k j) eqn:F; [apply eqb_eq in F; congruence | reflexivity].
  - destruct (eqb k' k) eqn:E; simpl.
    + apply eqb_eq in E. subst k'.
      destruct (eqb k j) eqn:F; [apply eqb_eq in F; congruence|].
      apply get_filter_other; assumption.
    + destruct (eqb k' j); [reflexivity | exact IH].
Qed.

Lemma getAll_filter_other (k j : jsstring) (ps : URLSearchParams) :
  j <> k ->
  getAll j (filter (fun p => negb (eqb (fst p) k)) ps) = getAll j ps.
Proof.
  intros Hjk. unfold getAll. induction ps as [|[k' v'] ps IH]; simpl; [reflexivity|].
  destruct (eqb k' k) eqn:E; simpl.
  - apply eqb_eq in E. subst k'.
    destruct (eqb k j) eqn:F; [apply eqb_eq in F; congruence | exact IH].
  - destruct (eqb k' j); simpl; [f_equal|]; exact IH.
Qed.

Lemma getAll_set_other (k j v : jsstring) (ps : URLSearchParams) :
  j <> k -> getAll j (set k v ps) = getAll j ps.
Proof.
  intros Hjk. induction ps as [|[k' v'] ps IH].
  - unfold getAll. simpl.
    destruct (eqb k j) eqn:F; [apply eqb_eq in F; congruence | reflexivity].
  - simpl. destruct (eqb k' k) eqn:E.
    + apply eqb_eq in E. subst k'.
      pose proof (getAll_filter_other k j ps Hjk) as H.
      unfold getAll in *. simpl.
      destruct (eqb k j) eqn:F; [apply eqb_eq in F; congruence | exact H].
    + unfold getAll in *. simpl.
      destruct (eqb k' j); simpl; [f_equal|]; exact IH.
Qed.


(** *** The filter *)

Hypothesis toLowerCase_empty : toLowerCase [] = [].

Lemma includes_ci_substring (q x : jsstring) :
  includes (toLowerCase x) (toLowerCase q) = true <-> ci_substring toLowerCase q x.
Proof. apply includes_spec. Qed.

Lemma selected_includes (st : StatusType) (sel : list StatusType) :
  existsb (fun x => StatusType_eqb x st) sel = true <-> In st sel.
Proof.
  rewrite existsb_exists. split.
  - intros [x [Hin Heq]]. destruct x, st; try discriminate; exact Hin.
  - intros Hin. exists st. split; [exact Hin | destruct st; reflexivity].
Qed.

Lemma length_zero_nil {A} (l : list A) :
  Nat.eqb (List.length l) 0 = true <-> l = [].
Proof. destruct l; simpl; split; congruence. Qed.

(** C1. A task is visible iff (the query is the empty string, or it is a
    case-insensitive substring of the task's name or of its details)
    and (no status is selected, or the task's status is selected). *)
Theorem filteredTasks_visible_iff (s : State) (t : Task) :
  In t (filteredTasks toLowerCase s) <->
  In t (tasks s) /\
  (filterText s = [] \/
   ci_substring toLowerCase (filterText s) (name t) \/
   ci_substring toLowerCase (filterText s) (details t)) /\
  (selectedStatuses s = [] \/ In (status t) (selectedStatuses s)).
Proof.
  unfold filteredTasks. rewrite filter_In. cbv zeta.
  rewrite andb_true_iff, !orb_true_iff, !includes_ci_substring.
  rewrite length_zero_nil, selected_includes.
  split.
  - intros (Hin & Htext & Hst). repeat split; auto.
  - intros (Hin & Htext & Hst). repeat split; auto.
    destruct Htext as [Hq | Htext]; [|exact Htext].
    left. apply includes_ci_substring.
    rewrite Hq, toLowerCase_empty. apply includes_empty.
Qed.

(** The visible subset keeps the order of the collection. *)
Lemma filteredTasks_all (s : State) :
  filterText s = [] -> selectedStatuses s = [] ->
  filteredTasks toLowerCase s = tasks s.
Proof.
  intros Hq Hsel. unfold filteredTasks. rewrite Hq, Hsel, toLowerCase_empty.
  simpl. induction (tasks s) as [|t l IH]; simpl; [reflexivity|].
  rewrite includes_empty. simpl. congruence.
Qed.

(** Lower-casing leaves surrounding white space alone and does not
    look across it. *)
Hypothesis toLowerCase_whitespace : forall a x b,
  forallb isWhiteSpace a = true -> forallb isWhiteSpace b = true ->
  toLowerCase (a ++ x ++ b) = a ++ toLowerCase x ++ b.

Lemma trimStart_split (s : jsstring) :
  exists a, forallb isWhiteSpace a = true /\ s = a ++ trimStart s.
Proof.
  induction s as [|c s (a & Ha & IH)]; simpl.
  - exists []. split; reflexivity.
  - destruct (isWhiteSpace c) eqn:E.
    + exists (c :: a). simpl. rewrite E, Ha. split; [reflexivity | congruence].
    + exists []. split; reflexivity.
Qed.

Lemma forallb_rev {A} (f : A -> bool) (l : list A) :
  forallb f (rev l) = forallb f l.
Proof.
  induction l as [|x l IH]; simpl; [reflexivity|].
  rewrite forallb_app, IH. simpl. rewrite andb_true_r. apply andb_comm.
Qed.

Lemma trim_split (s : jsstring) :
  exists a b, forallb isWhiteSpace a = true /\ forallb isWhiteSpace b = true /\
              s = a ++ trim s ++ b.
Proof.
  unfold trim, trimEnd.
  destruct (trimStart_split s) as (a & Ha & Hs).
  destruct (trimStart_split (rev (trimStart s))) as (b & Hb & Hr).
  exists a, (rev b). rewrite forallb_rev. repeat split; try assumption.
  rewrite <- rev_app_distr, <- Hr, rev_involutive. exact Hs.
Qed.

Lemma ci_substring_trim (q x : jsstring) :
  ci_substring toLowerCase q x -> ci_substring toLowerCase (trim q) x.
Proof.
  intros (u & v & Hx).
  destruct (trim_split q) as (a & b & Ha & Hb & Hq).
  rewrite Hq, (toLowerCase_whitespace _ _ _ Ha Hb) in Hx.
  exists (u ++ a), (b ++ v). rewrite Hx, <- !app_assoc. reflexivity.
Qed.

(** C9, as the code has it.  The query is used as typed, white space
    included; trimming it can only widen the result: every task visible
    under [q] is visible under [q.trim()]. *)
Theorem filteredTasks_trim_widens (s : State) (q : jsstring) (t : Task) :
  In t (filteredTasks toLowerCase (setFilterText q s)) ->
  In t (filteredTasks toLowerCase (setFilterText (trim q) s)).
Proof.
  unfold filteredTasks. rewrite !filter_In. simpl.
  rewrite !andb_true_iff, !orb_true_iff, !includes_ci_substring.
  intros (Hin & Htext & Hst). repeat split; try assumption.
  destruct Htext as [H | H]; [left | right]; apply ci_substring_trim; exact H.
Qed.

(** *** Loading *)

(** Unfolds one handler down to the server's answers. *)
Ltac run_handler :=
  unfold handleDragEnd, handleCreate, handleStatusChange, handleDelete,
    handleKeyDown, cancelNewTask, clickViewMode, viewModeEffect, loadTasks,
    try_catch, bind, ret, render, update, await, console_error, navigate;
  cbn [fst snd ui search server calls console].

(** What a reload does, whatever the server answers: one fetch is
    issued, nothing is thrown, and only the task collection changes. *)
Lemma loadTasks_run (w : World Err Server) :
  let r := fetchTasks api (server w) in
  let w' := snd (loadTasks api w) in
  fst (loadTasks api w) = Returned tt /\
  calls w' = calls w ++ [FetchTasks] /\
  server w' = snd r /\
  search w' = search w /\
  ui w' = setTasks (match fst r with
                    | Resolved (Some d) => d
                    | Resolved None => []
                    | Rejected _ => []
                    end) (ui w).
Proof.
  run_handler.
  destruct (fetchTasks api (server w)) as [[d|e] srv]; cbn; repeat split; reflexivity.
Qed.

(** C4. When the fetch-all call fails, the local collection becomes the
    empty collection, whatever it held before. *)
Theorem loadTasks_failure_empties (w : World Err Server) :
  isRejected (fst (fetchTasks api (server w))) = true ->
  tasks (ui (snd (loadTasks api w))) = [].
Proof.
  intros Hrej.
  destruct (loadTasks_run w) as (_ & _ & _ & _ & Hui).
  rewrite Hui.
  destruct (fst (fetchTasks api (server w))) as [d|e]; [discriminate | reflexivity].
Qed.

(** The failure is logged and not surfaced: the handler returns. *)
Lemma loadTasks_failure_logged (w : World Err Server) (e : Err) (srv : Server) :
  fetchTasks api (server w) = (Rejected e, srv) ->
  fst (loadTasks api w) = Returned tt /\
  console (snd (loadTasks api w)) = console w ++ [(FetchFailed, e)].
Proof.
  intros H. run_handler. rewrite H. cbn. split; reflexivity.
Qed.

(** *** Mutations *)

(** A rejected mutation is logged and not surfaced; the whole state,
    draft included, stays as it was. *)
Lemma handleStatusChange_failure (w : World Err Server) (task : Task)
      (newStatus : StatusType) :
  isRejected (fst (updateTask api (id task)
                     (mkPayload (name task) (details task) newStatus)
                     (server w))) = true ->
  fst (handleStatusChange api task newStatus w) = Returned tt /\
  ui (snd (handleStatusChange api task newStatus w)) = ui w.
Proof.
  run_handler.
  destruct (updateTask api _ _ (server w)) as [[a|e] srv];
    [discriminate | split; reflexivity].
Qed.

(** *** The draft editor *)

Lemma truthy_false (s : jsstring) : truthy s = false <-> s = [].
Proof. destruct s; simpl; split; congruence. Qed.

Lemma handleKeyDown_Enter (w : World Err Server) :
  handleKeyDown api (str "Enter") w = handleCreate api w.
Proof. reflexivity. Qed.

(** C3, as the code has it.  The Enter key is the confirm.  On a confirm:
    a blank name issues no call and closes the editor; a create call
    that succeeds closes the editor with both fields cleared; a create
    call that fails leaves the editor open with both fields as typed. *)
Theorem handleCreate_outcomes (w : World Err Server) :
  let s := ui w in
  let w' := snd (handleCreate api w) in
  let p := mkPayload (trim (newTaskName s)) (trim (newTaskDetails s)) NotStarted in
  handleKeyDown api (str "Enter") w = handleCreate api w /\
  (trim (newTaskName s) = [] ->
   calls w' = calls w /\ Idle (ui w')) /\
  (trim (newTaskName s) <> [] ->
   isRejected (fst (createTask api p (server w))) = false ->
   Idle (ui w') /\ newTaskName (ui w') = [] /\ newTaskDetails (ui w') = []) /\
  (trim (newTaskName s) <> [] ->
   isRejected (fst (createTask api p (server w))) = true ->
   ui w' = ui w).
Proof.
  cbv zeta. split; [reflexivity|]. split; [|split].
  - intros Hblank. run_handler. rewrite Hblank. cbn. split; reflexivity.
  - intros Hname Hok.
    assert (Ht : truthy (trim (newTaskName (ui w))) = true).
    { destruct (truthy _) eqn:E; [reflexivity | apply truthy_false in E; contradiction]. }
    unfold handleCreate, bind, render, try_catch. rewrite Ht.
    cbn [negb]. unfold await. cbn [ui server].
    destruct (createTask api _ (server w)) as [[a|e] srv]; [|discriminate].
    unfold update. cbn [ui search server calls console].
    match goal with |- context [loadTasks api ?x] =>
      destruct (loadTasks_run x) as (Hret & _ & _ & _ & Hui);
      destruct (loadTasks api x) as [o wl] end.
    cbn [fst snd] in *. subst o. cbn [snd]. rewrite Hui.
    repeat split.
  - intros Hname Hrej.
    assert (Ht : truthy (trim (newTaskName (ui w))) = true).
    { destruct (truthy _) eqn:E; [reflexivity | apply truthy_false in E; contradiction]. }
    run_handler. rewrite Ht. cbn.
    destruct (createTask api _ (server w)) as [[a|e] srv];
      [discriminate | reflexivity].
Qed.

(** A blank name leaves the two fields as typed. *)
Lemma handleCreate_blank_keeps_fields (w : World Err Server) :
  trim (newTaskName (ui w)) = [] ->
  newTaskName (ui (snd (handleCreate api w))) = newTaskName (ui w) /\
  newTaskDetails (ui (snd (handleCreate api w))) = newTaskDetails (ui w).
Proof.
  intros Hblank. run_handler. rewrite Hblank. cbn. split; reflexivity.
Qed.

(** The cancel button closes the editor and clears both fields. *)
Lemma cancelNewTask_clears (w : World Err Server) :
  let w' := snd (cancelNewTask w) in
  Idle (ui w') /\ newTaskName (ui w') = [] /\ newTaskDetails (ui w') = [] /\
  calls w' = calls w.
Proof. cbv zeta. run_handler. cbn. repeat split. Qed.

(** *** Drag and drop *)

Lemma StatusType_eqb_eq (a b : StatusType) : StatusType_eqb a b = true <-> a = b.
Proof. destruct a, b; simpl; split; congruence. Qed.

Lemma StatusType_eqb_neq (a b : StatusType) : StatusType_eqb a b = false <-> a <> b.
Proof. destruct a, b; simpl; split; congruence. Qed.

(** C8. A drag that ends outside every column, or on the column it
    started from, does nothing: no call is issued and the state, the
    server and the URL are what they were. *)
Theorem handleDragEnd_noop (w : World Err Server) (result : DropResult) :
  destination result = None \/
  (exists dest, destination result = Some dest /\
                droppableId dest = droppableId (source result)) ->
  handleDragEnd toLowerCase api result w = (Returned tt, w).
Proof.
  intros [Hnone | (dest & Hsome & Hsame)]; unfold handleDragEnd.
  - rewrite Hnone. reflexivity.
  - rewrite Hsome. apply StatusType_eqb_eq in Hsame. rewrite Hsame. reflexivity.
Qed.

(** C7. A drag whose identifier matches no task of the visible subset
    is ignored: the handler returns normally, no call is issued and
    nothing changes, even when the full collection holds that task. *)
Theorem handleDragEnd_unresolved_ignored (w : World Err Server) (result : DropResult) :
  find (fun t => eqb (Number_toString (id t)) (draggableId result))
       (filteredTasks toLowerCase (ui w)) = None ->
  handleDragEnd toLowerCase api result w = (Returned tt, w).
Proof.
  intros Hfind. unfold handleDragEnd.
  destruct (destination result) as [dest|]; [|reflexivity].
  destruct (StatusType_eqb _ _); [reflexivity|].
  unfold bind, render. rewrite Hfind. reflexivity.
Qed.

(** The run of a drag that reaches the update call: the call is
    recorded, and the reload runs only when it resolves. *)
Lemma handleDragEnd_run
      (w : World Err Server) (result : DropResult)
      (dest : DraggableLocation) (t : Task) :
  destination result = Some dest ->
  droppableId dest <> droppableId (source result) ->
  find (fun t => eqb (Number_toString (id t)) (draggableId result))
       (filteredTasks toLowerCase (ui w)) = Some t ->
  let p := mkPayload (name t) (details t) (droppableId dest) in
  let w1 := mkWorld (ui w) (search w) (snd (updateTask api (id t) p (server w)))
                    (calls w ++ [UpdateTask (id t) p]) (console w) in
  handleDragEnd toLowerCase api result w =
  match fst (updateTask api (id t) p (server w)) with
  | Resolved _ => loadTasks api w1
  | Rejected e => (Thrown e, w1)
  end.
Proof.
  intros Hdest Hdiff Hfind. cbv zeta. unfold handleDragEnd.
  rewrite Hdest. apply StatusType_eqb_neq in Hdiff. rewrite Hdiff.
  unfold bind, render, await. cbv beta iota. rewrite Hfind.
  cbn [ui search server calls console].
  destruct (updateTask api _ _ (server w)) as [[a|e] srv]; cbn [fst snd].
  - destruct (loadTasks api _) as [[u|e] w']; reflexivity.
  - reflexivity.
Qed.

(** C2, as the code has it.  A drag of a visible task to another column
    issues one update call with the task's name and details and the
    destination column as status; when the call succeeds exactly one
    reload follows it, and when it is rejected no reload is issued. *)
Theorem handleDragEnd_update_then_reload
        (w : World Err Server) (result : DropResult)
        (dest : DraggableLocation) (t : Task) :
  destination result = Some dest ->
  droppableId dest <> droppableId (source result) ->
  find (fun t => eqb (Number_toString (id t)) (draggableId result))
       (filteredTasks toLowerCase (ui w)) = Some t ->
  let p := mkPayload (name t) (details t) (droppableId dest) in
  let w' := snd (handleDragEnd toLowerCase api result w) in
  if isRejected (fst (updateTask api (id t) p (server w)))
  then calls w' = calls w ++ [UpdateTask (id t) p]
  else calls w' = calls w ++ [UpdateTask (id t) p; FetchTasks].
Proof.
  intros Hdest Hdiff Hfind. cbv zeta.
  rewrite (handleDragEnd_run w result dest t Hdest Hdiff Hfind).
  destruct (fst (updateTask api _ _ (server w))) as [a|e]; cbn [isRejected].
  - match goal with |- context [loadTasks api ?x] =>
      destruct (loadTasks_run x) as (_ & Hcalls & _) end.
    rewrite Hcalls. cbn [calls]. rewrite <- app_assoc. reflexivity.
  - reflexivity.
Qed.

(** After a successful drag the collection is what the reload fetched. *)
Lemma handleDragEnd_reloads
      (w : World Err Server) (result : DropResult)
      (dest : DraggableLocation) (t : Task) (a : Task) (srv : Server) :
  destination result = Some dest ->
  droppableId dest <> droppableId (source result) ->
  find (fun t => eqb (Number_toString (id t)) (draggableId result))
       (filteredTasks toLowerCase (ui w)) = Some t ->
  updateTask api (id t) (mkPayload (name t) (details t) (droppableId dest))
             (server w) = (Resolved a, srv) ->
  fst (handleDragEnd toLowerCase api result w) = Returned tt /\
  tasks (ui (snd (handleDragEnd toLowerCase api result w))) =
    match fst (fetchTasks api srv) with
    | Resolved (Some d) => d
    | _ => []
    end.
Proof.
  intros Hdest Hdiff Hfind Hup.
  rewrite (handleDragEnd_run w result dest t Hdest Hdiff Hfind), Hup.
  cbn [fst snd].
  match goal with |- context [loadTasks api ?x] =>
    destruct (loadTasks_run x) as (Hret & _ & _ & _ & Hui) end.
  rewrite Hret, Hui. cbn [ui server tasks setTasks]. split; [reflexivity|].
  destruct (fst (fetchTasks api srv)) as [[d|]|e]; reflexivity.
Qed.

(** A rejected update of a drag is thrown out of the handler: nothing
    catches it. *)
Lemma handleDragEnd_rejection_thrown
      (w : World Err Server) (result : DropResult)
      (dest : DraggableLocation) (t : Task) (e : Err) (srv : Server) :
  destination result = Some dest ->
  droppableId dest <> droppableId (source result) ->
  find (fun t => eqb (Number_toString (id t)) (draggableId result))
       (filteredTasks toLowerCase (ui w)) = Some t ->
  updateTask api (id t) (mkPayload (name t) (details t) (droppableId dest))
             (server w) = (Rejected e, srv) ->
  fst (handleDragEnd toLowerCase api result w) = Thrown e /\
  ui (snd (handleDragEnd toLowerCase api result w)) = ui w.
Proof.
  intros Hdest Hdiff Hfind Hup.
  rewrite (handleDragEnd_run w result dest t Hdest Hdiff Hfind), Hup.
  split; reflexivity.
Qed.

(** C5. When the call of a mutating handler (create, status change,
    delete, and the update of a drag) is rejected, the task collection
    is what it was before: the rejected call is the only call issued
    (no reload follows) and no state cell is patched. *)
Theorem mutation_failure_keeps_collection (w : World Err Server) :
  (let p := mkPayload (trim (newTaskName (ui w))) (trim (newTaskDetails (ui w)))
                      NotStarted in
   truthy (trim (newTaskName (ui w))) = true ->
   isRejected (fst (createTask api p (server w))) = true ->
   tasks (ui (snd (handleCreate api w))) = tasks (ui w) /\
   calls (snd (handleCreate api w)) = calls w ++ [CreateTask p]) /\
  (forall (task : Task) (newStatus : StatusType),
   let p := mkPayload (name task) (details task) newStatus in
   isRejected (fst (updateTask api (id task) p (server w))) = true ->
   tasks (ui (snd (handleStatusChange api task newStatus w))) = tasks (ui w) /\
   calls (snd (handleStatusChange api task newStatus w)) =
     calls w ++ [UpdateTask (id task) p]) /\
  (forall i : Z,
   isRejected (fst (deleteTask api i (server w))) = true ->
   tasks (ui (snd (handleDelete api i w))) = tasks (ui w) /\
   calls (snd (handleDelete api i w)) = calls w ++ [DeleteTask i]) /\
  (forall (result : DropResult) (dest : DraggableLocation) (t : Task),
   let p := mkPayload (name t) (details t) (droppableId dest) in
   destination result = Some dest ->
   droppableId dest <> droppableId (source result) ->
   find (fun t => eqb (Number_toString (id t)) (draggableId result))
        (filteredTasks toLowerCase (ui w)) = Some t ->
   isRejected (fst (updateTask api (id t) p (server w))) = true ->
   tasks (ui (snd (handleDragEnd toLowerCase api result w))) = tasks (ui w) /\
   calls (snd (handleDragEnd toLowerCase api result w)) =
     calls w ++ [UpdateTask (id t) p]).
Proof.
  split; [|split; [|split]].
  - cbv zeta. intros Hname Hrej. run_handler. rewrite Hname. cbn.
    destruct (createTask api _ (server w)) as [[a|e] srv];
      [discriminate | split; reflexivity].
  - intros task newStatus p Hrej. subst p. run_handler.
    destruct (updateTask api _ _ (server w)) as [[a|e] srv];
      [discriminate | split; reflexivity].
  - intros i Hrej. run_handler.
    destruct (deleteTask api _ (server w)) as [[a|e] srv];
      [discriminate | split; reflexivity].
  - intros result dest t p Hdest Hdiff Hfind Hrej. subst p.
    destruct (updateTask api (id t) _ (server w)) as [[a|e] srv] eqn:Hup;
      [discriminate|].
    rewrite (handleDragEnd_run w result dest t Hdest Hdiff Hfind), Hup.
    split; reflexivity.
Qed.

(** *** View mode *)

(** Without a [view] parameter, or with an empty one, the view is the
    table; a [table] or [board] parameter is taken as it is. *)
Lemma initialView_default (params : URLSearchParams) :
  get (str "view") params = None \/ get (str "view") params = Some [] ->
  initialView params = str "table".
Proof. unfold initialView. intros [-> | ->]; reflexivity. Qed.

Lemma initialView_recognized (params : URLSearchParams) (v : jsstring) :
  get (str "view") params = Some v ->
  v = str "table" \/ v = str "board" ->
  initialView params = v.
Proof. unfold initialView. intros -> [-> | ->]; reflexivity. Qed.

(** Any other non-empty value is taken as it is, too. *)
Lemma initialView_verbatim (params : URLSearchParams) (v : jsstring) :
  get (str "view") params = Some v -> v <> [] ->
  initialView params = v.
Proof.
  unfold initialView. intros -> Hv. destruct v; [contradiction | reflexivity].
Qed.

(** C10. Changing the view mode rewrites the [view] parameter only:
    every other parameter of the URL keeps its values, in their order. *)
Theorem clickViewMode_preserves_other_params
        (w : World Err Server) (v k : jsstring) :
  k <> str "view" ->
  getAll k (search (snd (clickViewMode v w))) = getAll k (search w) /\
  get k (search (snd (clickViewMode v w))) = get k (search w).
Proof.
  intros Hk. run_handler. cbn.
  split; [apply getAll_set_other | apply get_set_other]; exact Hk.
Qed.

(** The write stores the new mode under [view], and the other pairs are
    left where they were. *)
Lemma clickViewMode_writes_view (w : World Err Server) (v : jsstring) :
  get (str "view") (search (snd (clickViewMode v w))) = Some v /\
  filter (fun p => negb (eqb (fst p) (str "view"))) (search (snd (clickViewMode v w))) =
  filter (fun p => negb (eqb (fst p) (str "view"))) (search w).
Proof.
  run_handler. cbn. split; [apply get_set_same | apply filter_other_set].
Qed.

End Properties.

(** ** Further properties: toolbar, board and event wiring *)

Section Interaction.

Variable toLowerCase : jsstring -> jsstring.
Variables (Err Server : Type).
Variable api : Api Err Server.

(** *** The status selection *)

Lemma toggle_test (st : StatusType) (sel : list StatusType) :
  existsb (StatusType_eqb st) sel = true <-> In st sel.
Proof.
  rewrite existsb_exists. split.
  - intros [x [Hin Heq]]. apply StatusType_eqb_eq in Heq. subst x. exact Hin.
  - intros Hin. exists st. split; [exact Hin | apply StatusType_eqb_eq; reflexivity].
Qed.

Lemma In_remove_status (st x : StatusType) (sel : list StatusType) :
  In x (filter (fun y => negb (StatusType_eqb y st)) sel) <-> In x sel /\ x <> st.
Proof.
  rewrite filter_In, negb_true_iff, StatusType_eqb_neq. reflexivity.
Qed.

Lemma toggleStatus_In (st : StatusType) (s : State) :
  (In st (selectedStatuses (toggleStatus st s)) <-> ~ In st (selectedStatuses s)) /\
  (forall x, x <> st ->
     (In x (selectedStatuses (toggleStatus st s)) <-> In x (selectedStatuses s))).
Proof.
  unfold toggleStatus.
  destruct (existsb (StatusType_eqb st) (selectedStatuses s)) eqn:E; cbn [selectedStatuses setSelectedStatuses].
  - apply toggle_test in E. split.
    + rewrite In_remove_status. split; [intros [_ H]; congruence | contradiction].
    + intros x Hx. rewrite In_remove_status. tauto.
  - assert (Hn : ~ In st (selectedStatuses s)).
    { intros H. apply toggle_test in H. congruence. }
    split.
    + rewrite in_app_iff. simpl. tauto.
    + intros x Hx. rewrite in_app_iff. simpl. split; [|tauto].
      intros [H | [H | []]]; [exact H | congruence].
Qed.

(** X1. A click on a status checkbox flips the membership of that
    status in the selection and of no other status. *)
Theorem toggleStatus_membership (st : StatusType) (s : State) :
  (In st (selectedStatuses (toggleStatus st s)) <-> ~ In st (selectedStatuses s)) /\
  (forall x, x <> st ->
     (In x (selectedStatuses (toggleStatus st s)) <-> In x (selectedStatuses s))).
Proof.
  destruct (toggleStatus_In st s) as [Hst Hother]. split.
  - exact Hst.
  - intros x Hx. apply Hother. exact Hx.
Qed.

Lemma toggleStatus_NoDup (st : StatusType) (s : State) :
  NoDup (selectedStatuses s) -> NoDup (selectedStatuses (toggleStatus st s)).
Proof.
  intros Hnd. unfold toggleStatus.
  destruct (existsb (StatusType_eqb st) (selectedStatuses s)) eqn:E; cbn [selectedStatuses setSelectedStatuses].
  - apply NoDup_filter. exact Hnd.
  - apply NoDup_app; [exact Hnd | repeat constructor; simpl; tauto |].
    intros x Hx [<- | []]. apply toggle_test in Hx. congruence.
Qed.

Lemma all_statuses_listed (st : StatusType) : In st ALL_STATUSES.
Proof. destruct st; simpl; tauto. Qed.

(** A duplicate-free selection of as many statuses as exist holds every
    status. *)
Lemma full_selection (sel : list StatusType) :
  NoDup sel -> List.length sel = List.length ALL_STATUSES ->
  forall st, In st sel.
Proof.
  intros Hnd Hlen st.
  apply (NoDup_length_incl Hnd (l' := ALL_STATUSES)).
  - rewrite Hlen. apply le_n.
  - intros x _. apply all_statuses_listed.
  - apply all_statuses_listed.
Qed.

Lemma NoDup_statuses_length (sel : list StatusType) :
  NoDup sel -> (List.length sel <= 3)%nat.
Proof.
  intros Hnd.
  apply (NoDup_incl_length Hnd (l' := ALL_STATUSES)).
  intros x _. apply all_statuses_listed.
Qed.

(** The status test of the filter sees the selection only through its
    emptiness and its members. *)
Lemma filteredTasks_selection_ext (s : State) (sel sel' : list StatusType) :
  (sel = [] <-> sel' = []) ->
  (forall st, In st sel <-> In st sel') ->
  filteredTasks toLowerCase (setSelectedStatuses sel s) =
  filteredTasks toLowerCase (setSelectedStatuses sel' s).
Proof.
  intros Hnil Hmem. unfold filteredTasks.
  cbn [tasks filterText selectedStatuses setSelectedStatuses].
  apply filter_ext. intros t. f_equal. f_equal.
  - destruct sel, sel'; try reflexivity.
    + destruct Hnil as [H _]. specialize (H eq_refl). discriminate.
    + destruct Hnil as [_ H]. specialize (H eq_refl). discriminate.
  - apply eq_true_iff_eq. rewrite !selected_includes. apply Hmem.
Qed.

Lemma setSelectedStatuses_same (s : State) :
  setSelectedStatuses (selectedStatuses s) s = s.
Proof. destruct s; reflexivity. Qed.

Lemma toggleStatus_as_set (st : StatusType) (s : State) :
  toggleStatus st s = setSelectedStatuses (selectedStatuses (toggleStatus st s)) s.
Proof.
  unfold toggleStatus.
  destruct (existsb (StatusType_eqb st) (selectedStatuses s)); reflexivity.
Qed.

(** X3. Clicking the same checkbox twice brings back the visible
    subset. *)
Theorem toggleStatus_twice_visible (st : StatusType) (s : State) :
  filteredTasks toLowerCase (toggleStatus st (toggleStatus st s)) =
  filteredTasks toLowerCase s.
Proof.
  rewrite (toggleStatus_as_set st (toggleStatus st s)).
  rewrite (toggleStatus_as_set st s) at 2.
  set (sel2 := selectedStatuses (toggleStatus st (toggleStatus st s))).
  assert (Hmem : forall x, In x sel2 <-> In x (selectedStatuses s)).
  { intros x. subst sel2.
    destruct (toggleStatus_In st (toggleStatus st s)) as [H1 H2].
    destruct (toggleStatus_In st s) as [H3 H4].
    destruct (StatusType_eqb x st) eqn:E.
    - apply StatusType_eqb_eq in E. subst x. rewrite H1, H3.
      destruct (toggle_test st (selectedStatuses s)) as [Ha Hb].
      destruct (existsb (StatusType_eqb st) (selectedStatuses s)); split; intros H.
      + auto.
      + intros Hn. contradiction.
      + exfalso. apply H. intros Hin. specialize (Hb Hin). discriminate.
      + exfalso. specialize (Hb H). discriminate.
    - apply StatusType_eqb_neq in E. rewrite (H2 x E), (H4 x E). reflexivity. }
  rewrite <- (setSelectedStatuses_same s) at 3.
  transitivity (filteredTasks toLowerCase (setSelectedStatuses sel2 s)).
  - unfold filteredTasks. reflexivity.
  - apply filteredTasks_selection_ext; [|exact Hmem].
    split; intros H.
    + destruct (selectedStatuses s) as [|y l]; [reflexivity|].
      exfalso. destruct (Hmem y) as [_ Hb]. rewrite H in Hb. apply Hb. left. reflexivity.
    + destruct sel2 as [|y l]; [reflexivity|].
      exfalso. destruct (Hmem y) as [Ha _]. rewrite H in Ha. apply Ha. left. reflexivity.
Qed.

(** X4. On a duplicate-free selection, the label "すべて" is shown
    exactly when the status selection hides no task: the visible
    subset is then the one of the cleared selection. *)
Theorem statusFilterLabel_all (s : State) :
  NoDup (selectedStatuses s) ->
  (statusFilterLabel s = [12377; 12409; 12390] <->
   (forall st, selectedStatuses s = [] \/ In st (selectedStatuses s))) /\
  (statusFilterLabel s = [12377; 12409; 12390] ->
   filteredTasks toLowerCase s =
   filteredTasks toLowerCase (setSelectedStatuses [] s)).
Proof.
  intros Hnd.
  assert (Hlabel : statusFilterLabel s = [12377; 12409; 12390] ->
                   forall st, selectedStatuses s = [] \/ In st (selectedStatuses s)).
  { unfold statusFilterLabel. intros H st.
    pose proof (NoDup_statuses_length _ Hnd) as Hle.
    destruct (selectedStatuses s) as [|a [|b [|c [|d l]]]] eqn:E; cbn in H, Hle;
      try discriminate; try lia.
    - left. reflexivity.
    - right. rewrite <- E. apply full_selection; [rewrite E; exact Hnd | rewrite E; reflexivity]. }
  split; [split; [exact Hlabel|]|].
  - intros Hall. unfold statusFilterLabel.
    destruct (selectedStatuses s) as [|a l] eqn:E; [reflexivity|].
    assert (Hin : forall st, In st (a :: l)).
    { intros st. destruct (Hall st) as [H | H]; [discriminate | exact H]. }
    assert (Hlen : List.length (a :: l) = 3%nat).
    { apply Nat.le_antisymm.
      - apply NoDup_statuses_length. exact Hnd.
      - apply (NoDup_incl_length (l := ALL_STATUSES)).
        + repeat constructor; simpl; intuition discriminate.
        + intros x _. apply Hin. }
    rewrite Hlen. reflexivity.
  - intros H. specialize (Hlabel H).
    unfold filteredTasks. cbn [tasks filterText selectedStatuses setSelectedStatuses].
    apply filter_ext. intros t. f_equal.
    destruct (Hlabel (status t)) as [E | Hin].
    + rewrite E. reflexivity.
    + apply (proj2 (selected_includes _ _)) in Hin. rewrite Hin.
      rewrite orb_true_r. reflexivity.
Qed.

(** *** The board *)

(** X5. The columns of the board partition the visible subset: put
    together they hold each visible task once, and a card sits in the
    column of its own status. *)
Theorem boardColumns_partition (s : State) :
  Permutation (List.concat (map snd (boardColumns toLowerCase s)))
                          (filteredTasks toLowerCase s) /\
  (forall st t, In t (tasksInStatus toLowerCase s st) <->
                In t (filteredTasks toLowerCase s) /\ status t = st).
Proof.
  split.
  - unfold boardColumns, tasksInStatus. simpl. rewrite app_nil_r.
    induction (filteredTasks toLowerCase s) as [|t l IH]; simpl; [constructor|].
    destruct (status t); simpl.
    + constructor. exact IH.
    + apply Permutation_sym, Permutation_cons_app, Permutation_sym. exact IH.
    + rewrite app_assoc.
      apply Permutation_sym, Permutation_cons_app, Permutation_sym.
      rewrite <- app_assoc. exact IH.
  - intros st t. unfold tasksInStatus. rewrite filter_In, StatusType_eqb_eq. reflexivity.
Qed.

(** *** Handlers *)

Ltac run_all :=
  unfold step, mounted, mountEffects, handleKeyDown, handleDragEnd,
    handleCreate, handleStatusChange, handleDelete, cancelNewTask,
    clickViewMode, viewModeEffect, loadTasks,
    try_catch, bind, ret, render, update, await, console_error, navigate;
  cbv beta iota; cbn [fst snd ui search server calls console].

(** Splits on every answer of the server and every test of a handler. *)
Ltac break_run :=
  repeat (cbv beta iota; cbn [fst snd ui search server calls console negb];
    match goal with
    | |- context [fetchTasks api ?s] =>
        destruct (fetchTasks api s) as [[[?|]|?] ?]
    | |- context [createTask api ?p ?s] =>
        destruct (createTask api p s) as [[?|?] ?]
    | |- context [updateTask api ?i ?p ?s] =>
        destruct (updateTask api i p s) as [[?|?] ?]
    | |- context [deleteTask api ?i ?s] =>
        destruct (deleteTask api i s) as [[?|?] ?]
    | |- context [truthy ?x] => destruct (truthy x) eqn:?
    | |- context [eqb ?k (str "Enter")] => destruct (eqb k (str "Enter"))
    | |- context [destination ?r] => destruct (destination r)
    | |- context [StatusType_eqb (droppableId ?a) ?b] =>
        destruct (StatusType_eqb (droppableId a) b)
    | |- context [find ?f ?l] => destruct (find f l)
    end).

(** X6. Only a drag can end in an uncaught rejection: every other
    gesture returns normally whatever the server answers. *)
Theorem step_throws_only_on_drag (g : Gesture) (w : World Err Server) (e : Err) :
  fst (step toLowerCase api g w) = Thrown e ->
  exists result, g = DragEnd result.
Proof.
  destruct g; try (intros _; eexists; reflexivity);
    run_all; break_run; discriminate.
Qed.

Lemma setTasks_same (s : State) : setTasks (tasks s) s = s.
Proof. destruct s; reflexivity. Qed.

(** X8. No gesture patches the task collection locally: after any
    gesture the collection is the one held before, unless the gesture
    ended with a reload, whose fetch is then the last call issued. *)
Theorem step_tasks_change_only_by_reload (g : Gesture) (w : World Err Server) :
  tasks (ui (snd (step toLowerCase api g w))) = tasks (ui w) \/
  exists cs, calls (snd (step toLowerCase api g w)) = calls w ++ cs ++ [FetchTasks].
Proof.
  destruct g; try (left; reflexivity);
    try (left; cbn; unfold toggleStatus;
         destruct (existsb _ _); reflexivity);
    run_all; break_run;
    try (left; reflexivity);
    right; rewrite <- ?app_assoc; simpl;
    first [ exists []; reflexivity | eexists [_]; reflexivity ].
Qed.

(** X9. The remote handlers leave the toolbar and the URL alone: a
    load, a status change, a delete or a drag changes no state cell
    but the task collection, and a confirm of the draft changes only
    the collection and the three cells of the draft. *)
Theorem handlers_frame (w : World Err Server) :
  (exists ts, ui (snd (loadTasks api w)) = setTasks ts (ui w)) /\
  (forall task st, exists ts,
     ui (snd (handleStatusChange api task st w)) = setTasks ts (ui w)) /\
  (forall i, exists ts, ui (snd (handleDelete api i w)) = setTasks ts (ui w)) /\
  (forall result, exists ts,
     ui (snd (handleDragEnd toLowerCase api result w)) = setTasks ts (ui w)) /\
  (exists ts n d e,
     ui (snd (handleCreate api w)) =
     setEditingNewTask e (setNewTaskDetails d (setNewTaskName n (setTasks ts (ui w))))) /\
  search (snd (loadTasks api w)) = search w /\
  (forall task st, search (snd (handleStatusChange api task st w)) = search w) /\
  (forall i, search (snd (handleDelete api i w)) = search w) /\
  (forall result, search (snd (handleDragEnd toLowerCase api result w)) = search w) /\
  search (snd (handleCreate api w)) = search w.
Proof.
  assert (Hsame : exists ts, ui w = setTasks ts (ui w)).
  { exists (tasks (ui w)). symmetry. apply setTasks_same. }
  assert (Hdraft : forall e, exists ts n d e',
            setEditingNewTask e (ui w) =
            setEditingNewTask e' (setNewTaskDetails d (setNewTaskName n (setTasks ts (ui w))))).
  { intros e. exists (tasks (ui w)), (newTaskName (ui w)), (newTaskDetails (ui w)), e.
    destruct (ui w); reflexivity. }
  split; [|split; [|split; [|split; [|split]]]].
  - run_all; break_run; eexists; reflexivity.
  - intros task st. run_all; break_run; first [exact Hsame | eexists; reflexivity].
  - intros i. run_all; break_run; first [exact Hsame | eexists; reflexivity].
  - intros result. run_all; break_run; first [exact Hsame | eexists; reflexivity].
  - run_all; break_run;
      try (eexists _, [], [], false; reflexivity);
      try exact (Hdraft false).
    all: destruct (Hdraft (editingNewTask (ui w))) as (ts & n & d & e' & H);
      exists ts, n, d, e'; rewrite <- H; destruct (ui w); reflexivity.
  - repeat split; intros; run_all; break_run; reflexivity.
Qed.

(** *** Successful mutations *)

(** X10. A mutation that the server accepts is followed by exactly one
    reload, and the collection becomes what that reload fetched from
    the server as the mutation left it (empty when the fetch fails or
    yields null): for a confirm of the draft, a status change and a
    delete. *)
Theorem mutation_success_reloads (w : World Err Server) :
  (let p := mkPayload (trim (newTaskName (ui w))) (trim (newTaskDetails (ui w)))
                      NotStarted in
   truthy (trim (newTaskName (ui w))) = true ->
   isRejected (fst (createTask api p (server w))) = false ->
   calls (snd (handleCreate api w)) = calls w ++ [CreateTask p; FetchTasks] /\
   tasks (ui (snd (handleCreate api w))) =
     match fst (fetchTasks api (snd (createTask api p (server w)))) with
     | Resolved (Some d) => d
     | _ => []
     end) /\
  (forall (task : Task) (newStatus : StatusType),
   let p := mkPayload (name task) (details task) newStatus in
   isRejected (fst (updateTask api (id task) p (server w))) = false ->
   calls (snd (handleStatusChange api task newStatus w)) =
     calls w ++ [UpdateTask (id task) p; FetchTasks] /\
   tasks (ui (snd (handleStatusChange api task newStatus w))) =
     match fst (fetchTasks api (snd (updateTask api (id task) p (server w)))) with
     | Resolved (Some d) => d
     | _ => []
     end) /\
  (forall i : Z,
   isRejected (fst (deleteTask api i (server w))) = false ->
   calls (snd (handleDelete api i w)) = calls w ++ [DeleteTask i; FetchTasks] /\
   tasks (ui (snd (handleDelete api i w))) =
     match fst (fetchTasks api (snd (deleteTask api i (server w)))) with
     | Resolved (Some d) => d
     | _ => []
     end).
Proof.
  split; [|split].
  - cbv zeta. intros Hname Hok. run_all. rewrite Hname.
    cbv beta iota. cbn [negb].
    destruct (createTask api _ (server w)) as [[a|e] srv]; [|discriminate].
    cbn [fst snd ui search server calls console].
    destruct (fetchTasks api srv) as [[[d|]|e] srv'];
      cbn; rewrite <- app_assoc; split; reflexivity.
  - intros task newStatus p Hok. subst p. run_all.
    destruct (updateTask api _ _ (server w)) as [[a|e] srv]; [|discriminate].
    cbn [fst snd ui search server calls console].
    destruct (fetchTasks api srv) as [[[d|]|e] srv'];
      cbn; rewrite <- app_assoc; split; reflexivity.
  - intros i Hok. run_all.
    destruct (deleteTask api _ (server w)) as [[a|e] srv]; [|discriminate].
    cbn [fst snd ui search server calls console].
    destruct (fetchTasks api srv) as [[[d|]|e] srv'];
      cbn; rewrite <- app_assoc; split; reflexivity.
Qed.

(** X11. When the server accepts the update, a drag of a visible card
    to another column is the same run as choosing that column's status
    in the card's selector. *)
Theorem handleDragEnd_as_status_change
        (w : World Err Server) (result : DropResult)
        (dest : DraggableLocation) (t : Task) :
  destination result = Some dest ->
  droppableId dest <> droppableId (source result) ->
  find (fun t => eqb (Number_toString (id t)) (draggableId result))
       (filteredTasks toLowerCase (ui w)) = Some t ->
  isRejected (fst (updateTask api (id t)
                     (mkPayload (name t) (details t) (droppableId dest))
                     (server w))) = false ->
  handleDragEnd toLowerCase api result w =
  handleStatusChange api t (droppableId dest) w.
Proof.
  intros Hdest Hdiff Hfind Hok.
  rewrite (handleDragEnd_run toLowerCase _ _ api w result dest t Hdest Hdiff Hfind).
  unfold handleStatusChange, try_catch, bind, await.
  cbv beta iota. cbn [ui search server calls console].
  destruct (updateTask api _ _ (server w)) as [[a|e] srv]; [|discriminate].
  cbn [fst snd].
  match goal with |- context [loadTasks api ?x] =>
    destruct (loadTasks_run _ _ api x) as (Hret & _);
    destruct (loadTasks api x) as [o w2] end.
  cbn [fst] in Hret. subst o. reflexivity.
Qed.

(** *** The draft row *)

Lemma trimStart_head (s : jsstring) :
  match trimStart s with [] => True | c :: _ => isWhiteSpace c = false end.
Proof.
  induction s as [|c s IH]; simpl; [exact I|].
  destruct (isWhiteSpace c) eqn:E; [exact IH | exact E].
Qed.

Lemma trimStart_id (s : jsstring) :
  match s with [] => True | c :: _ => isWhiteSpace c = false end ->
  trimStart s = s.
Proof. destruct s as [|c s]; simpl; [reflexivity | intros ->; reflexivity]. Qed.

Lemma trimEnd_id (s : jsstring) : trimEnd (trimEnd s) = trimEnd s.
Proof.
  unfold trimEnd. rewrite rev_involutive.
  rewrite (trimStart_id (trimStart (rev s))); [reflexivity | apply trimStart_head].
Qed.

Lemma trimEnd_head (s : jsstring) :
  match s with [] => True | c :: _ => isWhiteSpace c = false end ->
  match trimEnd s with [] => True | c :: _ => isWhiteSpace c = false end.
Proof.
  intros Hs. unfold trimEnd.
  destruct (trimStart_split (rev s)) as (a & _ & Ha).
  apply (f_equal (@rev N)) in Ha. rewrite rev_involutive, rev_app_distr in Ha.
  destruct (rev (trimStart (rev s))) as [|c l]; [exact I|].
  rewrite Ha in Hs. exact Hs.
Qed.

(** Trimming a trimmed string changes nothing. *)
Lemma trim_trim (s : jsstring) : trim (trim s) = trim s.
Proof.
  unfold trim.
  rewrite (trimStart_id (trimEnd (trimStart s))).
  - apply trimEnd_id.
  - apply trimEnd_head, trimStart_head.
Qed.

(** X12. Every create call a confirm of the draft issues carries a
    non-empty name without surrounding white space, trimmed details
    and the status 未着手. *)
Theorem handleCreate_payload (w : World Err Server) (p : Payload) :
  In (CreateTask p) (calls (snd (handleCreate api w))) ->
  In (CreateTask p) (calls w) \/
  (p_name p <> [] /\ trim (p_name p) = p_name p /\
   trim (p_details p) = p_details p /\ p_status p = NotStarted).
Proof.
  run_all. destruct (truthy (trim (newTaskName (ui w)))) eqn:Hname;
    cbv beta iota; cbn [negb fst snd ui search server calls console].
  - assert (Hp : In (CreateTask p)
                    [CreateTask (mkPayload (trim (newTaskName (ui w)))
                                           (trim (newTaskDetails (ui w))) NotStarted)] ->
                 p_name p <> [] /\ trim (p_name p) = p_name p /\
                 trim (p_details p) = p_details p /\ p_status p = NotStarted).
    { intros [H | []]. injection H as <-. cbn [p_name p_details p_status].
      rewrite !trim_trim. repeat split.
      intros E. rewrite E in Hname. discriminate. }
    break_run; cbn [fst snd ui search server calls console];
      rewrite ?in_app_iff; cbn [In]; intros H;
      repeat (destruct H as [H | H]); try discriminate H; try contradiction;
      first [left; exact H | right; apply Hp; left; exact H].
  - auto.
Qed.

(** *** Drags and cards *)

Lemma digits_inj (u v : Decimal.uint) : digits u = digits v -> u = v.
Proof.
  revert v. induction u; intros [] H; simpl in H;
    try discriminate H; try reflexivity;
    injection H as H; f_equal; auto.
Qed.

(** Distinct integers print differently. *)
Lemma Number_toString_inj (n m : Z) :
  Number_toString n = Number_toString m -> n = m.
Proof.
  unfold Number_toString. intros H.
  rewrite <- (DecimalZ.of_to n), <- (DecimalZ.of_to m).
  destruct (Z.to_int n) as [u|u], (Z.to_int m) as [v|v].
  - apply digits_inj in H. congruence.
  - destruct u; discriminate H.
  - destruct v; discriminate H.
  - injection H as H. apply digits_inj in H. congruence.
Qed.

Lemma find_by_id (l : list Task) (t : Task) :
  In t l -> NoDup (map id l) ->
  find (fun u => eqb (Number_toString (id u)) (Number_toString (id t))) l = Some t.
Proof.
  induction l as [|u l IH]; simpl; [contradiction|].
  intros Hin Hnd. inversion Hnd as [|x xs Hnotin Hnd']; subst.
  destruct (eqb (Number_toString (id u)) (Number_toString (id t))) eqn:E.
  - apply eqb_eq, Number_toString_inj in E.
    destruct Hin as [-> | Hin]; [reflexivity|].
    exfalso. apply Hnotin. rewrite E. apply in_map. exact Hin.
  - destruct Hin as [-> | Hin]; [rewrite eqb_refl in E; discriminate|].
    apply IH; assumption.
Qed.

(** X13. With identifiers unique among the visible tasks, the drag of
    a card (whose draggable id is the decimal form of its task's id)
    to another column resolves to that very task: the update call
    carries its id, name and details. *)
Theorem handleDragEnd_updates_dragged_card
        (w : World Err Server) (result : DropResult)
        (dest : DraggableLocation) (t : Task) :
  In t (filteredTasks toLowerCase (ui w)) ->
  NoDup (map id (filteredTasks toLowerCase (ui w))) ->
  draggableId result = Number_toString (id t) ->
  destination result = Some dest ->
  droppableId dest <> droppableId (source result) ->
  exists rest,
    calls (snd (handleDragEnd toLowerCase api result w)) =
    calls w ++ UpdateTask (id t) (mkPayload (name t) (details t) (droppableId dest))
            :: rest.
Proof.
  intros Hin Hnd Hid Hdest Hdiff.
  pose proof (find_by_id _ t Hin Hnd) as Hfind. rewrite <- Hid in Hfind.
  rewrite (handleDragEnd_run toLowerCase _ _ api w result dest t Hdest Hdiff Hfind).
  destruct (fst (updateTask api _ _ (server w))) as [a|e].
  - match goal with |- context [loadTasks api ?x] =>
      destruct (loadTasks_run _ _ api x) as (_ & Hcalls & _) end.
    rewrite Hcalls. cbn [calls]. rewrite <- app_assoc. eexists. reflexivity.
  - exists []. reflexivity.
Qed.

(** *** The view mode and the URL *)

Lemma filter_other_idem (k : jsstring) (ps : URLSearchParams) :
  filter (fun p => negb (eqb (fst p) k)) (filter (fun p => negb (eqb (fst p) k)) ps) =
  filter (fun p => negb (eqb (fst p) k)) ps.
Proof.
  induction ps as [|q ps IH]; simpl; [reflexivity|].
  destruct (negb (eqb (fst q) k)) eqn:E; simpl; rewrite ?E, IH; reflexivity.
Qed.

Lemma set_set (k v1 v2 : jsstring) (ps : URLSearchParams) :
  set k v2 (set k v1 ps) = set k v2 ps.
Proof.
  induction ps as [|[k' v'] ps IH]; simpl.
  - rewrite eqb_refl. reflexivity.
  - destruct (eqb k' k) eqn:E; simpl; rewrite E.
    + rewrite filter_other_idem. reflexivity.
    + rewrite IH. reflexivity.
Qed.

Lemma getAll_filter_same (k : jsstring) (ps : URLSearchParams) :
  getAll k (filter (fun p => negb (eqb (fst p) k)) ps) = [].
Proof.
  unfold getAll. induction ps as [|q ps IH]; simpl; [reflexivity|].
  destruct (eqb (fst q) k) eqn:E; simpl; rewrite ?E; exact IH.
Qed.

Lemma getAll_set_same (k v : jsstring) (ps : URLSearchParams) :
  getAll k (set k v ps) = [v].
Proof.
  induction ps as [|[k' v'] ps IH].
  - unfold getAll. simpl. rewrite eqb_refl. reflexivity.
  - simpl. destruct (eqb k' k) eqn:E.
    + pose proof (getAll_filter_same k ps) as H. unfold getAll in *.
      simpl. rewrite E. simpl. rewrite H. reflexivity.
    + unfold getAll in *. simpl. rewrite E. exact IH.
Qed.

(** X14. A view switch leaves exactly one [view] parameter in the URL,
    holding the new mode, so that a page reload on that URL mounts the
    component in the mode last chosen (for any non-empty mode, and so
    for the two buttons). *)
Theorem view_survives_reload (w : World Err Server) (v : jsstring) :
  v <> [] ->
  getAll (str "view") (search (snd (clickViewMode v w))) = [v] /\
  viewMode (mount (search (snd (clickViewMode v w)))) = v.
Proof.
  intros Hv. run_all. split.
  - apply getAll_set_same.
  - unfold mount, initialView. cbn [viewMode setViewMode].
    rewrite get_set_same. destruct v; [contradiction | reflexivity].
Qed.

(** X15. Of two view switches in a row only the last one shows in the
    URL: it reads as if the first had not happened. *)
Theorem clickViewMode_last_wins (w : World Err Server) (v1 v2 : jsstring) :
  search (snd (clickViewMode v2 (snd (clickViewMode v1 w)))) =
  search (snd (clickViewMode v2 w)).
Proof. run_all. apply set_set. Qed.

(** X16. What mounting does: one fetch is issued; the collection is
    what it returned (empty when it failed or returned null); the view
    mode is read from the URL and written back under [view]; every
    other parameter of the URL is kept. *)
Theorem mounted_world (search0 : URLSearchParams) (srv : Server) :
  let w := mounted api search0 srv in
  calls w = [FetchTasks] /\
  tasks (ui w) = match fst (fetchTasks api srv) with
                 | Resolved (Some d) => d
                 | _ => []
                 end /\
  viewMode (ui w) = initialView search0 /\
  get (str "view") (search w) = Some (initialView search0) /\
  (forall k, k <> str "view" -> getAll k (search w) = getAll k search0).
Proof.
  cbv zeta. run_all.
  destruct (fetchTasks api srv) as [[[d|]|e] srv'];
    cbn [fst snd ui search server calls console mount setTasks viewMode tasks];
    (repeat split; [apply get_set_same | intros k Hk; apply getAll_set_other; exact Hk]).
Qed.

(** *** Invariants of a session *)

Lemma run_invariant (P : World Err Server -> Prop) :
  (forall g w, P w -> P (snd (step toLowerCase api g w))) ->
  forall gs w, P w -> P (run toLowerCase api gs w).
Proof.
  intros Hstep gs. induction gs as [|g gs IH]; intros w Hw; simpl; auto.
Qed.

Lemma toggleStatus_viewMode (st : StatusType) (s : State) :
  viewMode (toggleStatus st s) = viewMode s.
Proof. unfold toggleStatus. destruct (existsb _ _); reflexivity. Qed.

Lemma step_mirrored (g : Gesture) (w : World Err Server) :
  mirrored w -> mirrored (snd (step toLowerCase api g w)).
Proof.
  unfold mirrored. intros Hw.
  destruct g; run_all;
    try (cbn [viewMode setViewMode]; apply get_set_same);
    try (cbn; rewrite ?toggleStatus_viewMode; exact Hw);
    break_run; exact Hw.
Qed.

(** X17. The URL mirrors the view mode throughout a session: from the
    mount on, after any sequence of gestures, the [view] parameter of
    the URL is the view mode held in the state. *)
Theorem view_mirrored_always
        (search0 : URLSearchParams) (srv : Server) (gs : list Gesture) :
  mirrored (run toLowerCase api gs (mounted api search0 srv)).
Proof.
  apply run_invariant.
  - intros g w. apply step_mirrored.
  - unfold mirrored. run_all.
    destruct (fetchTasks api srv) as [[[d|]|e] srv'];
      cbn [fst snd ui search server calls console mount setTasks viewMode];
      apply get_set_same.
Qed.

Lemma step_selection_NoDup (g : Gesture) (w : World Err Server) :
  NoDup (selectedStatuses (ui w)) ->
  NoDup (selectedStatuses (ui (snd (step toLowerCase api g w)))).
Proof.
  intros Hw.
  destruct g; run_all;
    try (apply toggleStatus_NoDup; exact Hw);
    try (cbn; first [exact Hw | constructor]);
    break_run; exact Hw.
Qed.

(** X2. No status is ever selected twice: from the mount on, after any
    sequence of gestures, the selection is duplicate-free (and so holds
    at most three statuses). *)
Theorem selection_never_duplicates
        (search0 : URLSearchParams) (srv : Server) (gs : list Gesture) :
  let w := run toLowerCase api gs (mounted api search0 srv) in
  NoDup (selectedStatuses (ui w)) /\
  (List.length (selectedStatuses (ui w)) <= 3)%nat.
Proof.
  cbv zeta.
  assert (H : NoDup (selectedStatuses
                       (ui (run toLowerCase api gs (mounted api search0 srv))))).
  { apply (run_invariant (fun w => NoDup (selectedStatuses (ui w)))).
    - intros g w. apply step_selection_NoDup.
    - run_all.
      destruct (fetchTasks api srv) as [[[d|]|e] srv']; cbn; constructor. }
  split; [exact H | apply NoDup_statuses_length; exact H].
Qed.

(** *** Logging and the draft session *)

(** X18. Each failure a handler catches is logged exactly once, under
    that handler's message and with the error the server gave: for the
    load, the confirm of a draft, the status change and the delete. *)
Theorem failures_logged (w : World Err Server) (e : Err) (srv : Server) :
  (fetchTasks api (server w) = (Rejected e, srv) ->
   console (snd (loadTasks api w)) = console w ++ [(FetchFailed, e)]) /\
  (truthy (trim (newTaskName (ui w))) = true ->
   createTask api (mkPayload (trim (newTaskName (ui w)))
                             (trim (newTaskDetails (ui w))) NotStarted)
              (server w) = (Rejected e, srv) ->
   console (snd (handleCreate api w)) = console w ++ [(CreateFailed, e)]) /\
  (forall task st,
   updateTask api (id task) (mkPayload (name task) (details task) st) (server w) =
     (Rejected e, srv) ->
   console (snd (handleStatusChange api task st w)) =
     console w ++ [(StatusUpdateFailed, e)]) /\
  (forall i,
   deleteTask api i (server w) = (Rejected e, srv) ->
   console (snd (handleDelete api i w)) = console w ++ [(DeleteFailed, e)]).
Proof.
  split; [|split; [|split]].
  - intros H. run_all. rewrite H. reflexivity.
  - intros Hname H. run_all. rewrite Hname. cbv beta iota. cbn [negb].
    rewrite H. reflexivity.
  - intros task st H. run_all. rewrite H. reflexivity.
  - intros i H. run_all. rewrite H. reflexivity.
Qed.

(** X7. Gestures on the toolbar and in the draft inputs stay local:
    apart from a status select, a delete click, a key press or a
    confirm in the draft row, and a drag, no gesture calls the server,
    logs, or touches the task collection. *)
Theorem step_local_gestures (g : Gesture) (w : World Err Server) :
  match g with
  | ChangeTaskStatus _ _ | ClickDelete _ | KeyDown _ | ClickConfirm | DragEnd _ => True
  | _ =>
      calls (snd (step toLowerCase api g w)) = calls w /\
      server (snd (step toLowerCase api g w)) = server w /\
      console (snd (step toLowerCase api g w)) = console w /\
      tasks (ui (snd (step toLowerCase api g w))) = tasks (ui w)
  end.
Proof.
  destruct g; try exact I; run_all; repeat split.
  cbn. unfold toggleStatus. destruct (existsb _ _); reflexivity.
Qed.

Lemma handleCreate_issues (w : World Err Server) :
  truthy (trim (newTaskName (ui w))) = true ->
  exists rest,
    calls (snd (handleCreate api w)) =
    calls w ++ CreateTask (mkPayload (trim (newTaskName (ui w)))
                                     (trim (newTaskDetails (ui w))) NotStarted)
            :: rest.
Proof.
  intros Hn. run_all. rewrite Hn. cbv beta iota. cbn [negb].
  break_run; rewrite <- ?app_assoc; eexists; reflexivity.
Qed.

(** X19. Opening the draft row, typing a name and details, and
    pressing Enter issues a create call with the trimmed name, the
    trimmed details and the status 未着手, whatever the draft cells
    held before, as long as the name is not blank. *)
Theorem draft_session_creates (w : World Err Server) (n d : jsstring) :
  truthy (trim n) = true ->
  exists rest,
    calls (run toLowerCase api
             [ClickAddRow; ChangeNewTaskName n; ChangeNewTaskDetails d;
              KeyDown (str "Enter")] w) =
    calls w ++ CreateTask (mkPayload (trim n) (trim d) NotStarted) :: rest.
Proof.
  intros Hn. cbn [run step]. rewrite handleKeyDown_Enter.
  match goal with |- context [handleCreate api ?x] =>
    exact (handleCreate_issues x Hn) end.
Qed.

(** X20. A cancelled draft leaves no trace: after opening the draft
    row, typing and cancelling, no call was issued and the state is
    the one before with the row closed and both fields empty. *)
Theorem draft_session_cancelled (w : World Err Server) (n d : jsstring) :
  let w' := run toLowerCase api
              [ClickAddRow; ChangeNewTaskName n; ChangeNewTaskDetails d; ClickCancel] w in
  calls w' = calls w /\ server w' = server w /\ search w' = search w /\
  ui w' = setEditingNewTask false (setNewTaskDetails [] (setNewTaskName [] (ui w))).
Proof. cbv zeta. cbn [run]. run_all. repeat split. Qed.

End Interaction.

(** ** Concrete runs

    The theorems above at the in-memory server and the ASCII
    lower-casing, and the runs on which the specification and the code
    part ways. *)

Lemma asciiLower_whitespace_unit (c : N) :
  isWhiteSpace c = true -> ((65 <=? c) && (c <=? 90)) = false.
Proof.
  intros H. destruct ((65 <=? c) && (c <=? 90)) eqn:E; [|reflexivity].
  apply andb_true_iff in E. destruct E as [E1 E2].
  apply N.leb_le in E1, E2.
  unfold isWhiteSpace in H.
  repeat rewrite orb_true_iff in H. rewrite andb_true_iff in H.
  repeat rewrite N.eqb_eq in H. repeat rewrite N.leb_le in H.
  lia.
Qed.

Lemma asciiLower_whitespace_id (a : jsstring) :
  forallb isWhiteSpace a = true -> asciiLower a = a.
Proof.
  induction a as [|c a IH]; simpl; [reflexivity|].
  rewrite andb_true_iff. intros [Hc Ha].
  rewrite (asciiLower_whitespace_unit c Hc). f_equal. exact (IH Ha).
Qed.

Lemma asciiLower_whitespace (a x b : jsstring) :
  forallb isWhiteSpace a = true -> forallb isWhiteSpace b = true ->
  asciiLower (a ++ x ++ b) = a ++ asciiLower x ++ b.
Proof.
  intros Ha Hb. unfold asciiLower. rewrite !map_app.
  fold (asciiLower a) (asciiLower b) (asciiLower x).
  rewrite (asciiLower_whitespace_id a Ha), (asciiLower_whitespace_id b Hb).
  reflexivity.
Qed.

(** C1 at [task1] with the query "SPEC" and no status selected. *)
Lemma filteredTasks_visible_iff_witness :
  In task1 (filteredTasks asciiLower (setFilterText (str "SPEC") board0)) <->
  In task1 (tasks board0) /\
  (str "SPEC" = [] \/
   ci_substring asciiLower (str "SPEC") (name task1) \/
   ci_substring asciiLower (str "SPEC") (details task1)) /\
  (selectedStatuses board0 = [] \/ In (status task1) (selectedStatuses board0)).
Proof.
  exact (filteredTasks_visible_iff asciiLower eq_refl
           (setFilterText (str "SPEC") board0) task1).
Defined.

(** The two end-to-end examples of the specification. *)
Example filter_spec_query :
  filteredTasks asciiLower
    (setFilterText (str "spec") (setTasks [task1] board0)) = [task1].
Proof. reflexivity. Qed.

Example filter_done_only :
  filteredTasks asciiLower
    (setSelectedStatuses [Done] (setTasks [task1] board0)) = [].
Proof. reflexivity. Qed.

(** C9 fails as stated: the query " spec " (with a trailing space)
    hides a task that its trimmed form "spec" shows. *)
Lemma filteredTasks_not_trimmed :
  filteredTasks asciiLower (setFilterText (str " spec ") board0) = [] /\
  filteredTasks asciiLower (setFilterText (trim (str " spec ")) board0) = [task1] /\
  filteredTasks asciiLower (setFilterText (str " spec ") board0) <>
  filteredTasks asciiLower (setFilterText (trim (str " spec ")) board0).
Proof. repeat split. discriminate. Qed.

(** The amended C9 at the query " spec". *)
Lemma filteredTasks_trim_widens_witness :
  In task1 (filteredTasks asciiLower (setFilterText (str " spec") board0)) /\
  In task1 (filteredTasks asciiLower (setFilterText (trim (str " spec")) board0)).
Proof.
  assert (H : In task1 (filteredTasks asciiLower (setFilterText (str " spec") board0))).
  { left. reflexivity. }
  split; [exact H|].
  exact (filteredTasks_trim_widens asciiLower asciiLower_whitespace
           board0 (str " spec") task1 H).
Defined.

(** C4: the fetch fails while two tasks are held. *)
Lemma loadTasks_failure_empties_witness :
  tasks (ui (world board0 false)) = [task1; task2] /\
  tasks (ui (snd (loadTasks demoApi (world board0 false)))) = [].
Proof.
  split; [reflexivity|].
  exact (loadTasks_failure_empties _ _ demoApi (world board0 false) eq_refl).
Defined.

(** C5 at the offline server: a confirm of the draft, a status change,
    a delete and a drag. *)
Lemma mutation_failure_keeps_collection_witness :
  (tasks (ui (snd (handleCreate demoApi (world drafting false)))) = [task1; task2] /\
   calls (snd (handleCreate demoApi (world drafting false))) =
     [CreateTask (mkPayload (str "Review") (str "soon") NotStarted)]) /\
  (tasks (ui (snd (handleStatusChange demoApi task1 InProgress (world board0 false)))) =
     [task1; task2] /\
   calls (snd (handleStatusChange demoApi task1 InProgress (world board0 false))) =
     [UpdateTask 1 (mkPayload (str "Write spec") [] InProgress)]) /\
  (tasks (ui (snd (handleDelete demoApi 2 (world board0 false)))) = [task1; task2] /\
   calls (snd (handleDelete demoApi 2 (world board0 false))) = [DeleteTask 2]) /\
  (tasks (ui (snd (handleDragEnd asciiLower demoApi dragToDone (world board0 false)))) =
     [task1; task2] /\
   calls (snd (handleDragEnd asciiLower demoApi dragToDone (world board0 false))) =
     [UpdateTask 1 (mkPayload (str "Write spec") [] Done)]).
Proof.
  split; [|split; [|split]].
  - exact (proj1 (mutation_failure_keeps_collection asciiLower _ _ demoApi (world drafting false))
                 eq_refl eq_refl).
  - exact (proj1 (proj2 (mutation_failure_keeps_collection asciiLower _ _ demoApi (world board0 false)))
                 task1 InProgress eq_refl).
  - exact (proj1 (proj2 (proj2 (mutation_failure_keeps_collection asciiLower _ _ demoApi
                                  (world board0 false))))
                 2%Z eq_refl).
  - refine (proj2 (proj2 (proj2 (mutation_failure_keeps_collection asciiLower _ _ demoApi
                                   (world board0 false))))
                  dragToDone (mkLocation Done 0) task1 eq_refl _ eq_refl eq_refl).
    discriminate.
Defined.

(** C3 fails as stated: with the server offline, a confirm of the draft
    "  Review  " leaves the editor open and both fields as typed. *)
Lemma handleCreate_failure_keeps_draft :
  let w' := snd (handleCreate demoApi (world drafting false)) in
  calls w' = [CreateTask (mkPayload (str "Review") (str "soon") NotStarted)] /\
  Editing (ui w') /\
  newTaskName (ui w') = str "  Review  " /\
  newTaskDetails (ui w') = str " soon " /\
  ~ (Idle (ui w') /\ newTaskName (ui w') = [] /\ newTaskDetails (ui w') = []).
Proof.
  cbv zeta. repeat split. intros [H _]. discriminate H.
Qed.

(** The blank draft: the editor closes and no call is issued, but the
    fields are not cleared. *)
Example handleCreate_blank_run :
  let w' := snd (handleCreate demoApi (world draftingBlank true)) in
  calls w' = [] /\ Idle (ui w') /\
  newTaskName (ui w') = str "   " /\ newTaskDetails (ui w') = str "soon".
Proof. cbv zeta. repeat split. Qed.

(** The end-to-end example of the specification: the name "  Review  "
    is sent trimmed, with the status 未着手. *)
Example handleCreate_trims_name :
  calls (snd (handleCreate demoApi (world drafting true))) =
  [CreateTask (mkPayload (str "Review") (str "soon") NotStarted); FetchTasks].
Proof. reflexivity. Qed.

(** The amended C3 on the three drafts: blank, accepted, rejected. *)
Lemma handleCreate_outcomes_witness :
  (calls (snd (handleCreate demoApi (world draftingBlank true))) = [] /\
   Idle (ui (snd (handleCreate demoApi (world draftingBlank true))))) /\
  (Idle (ui (snd (handleCreate demoApi (world drafting true)))) /\
   newTaskName (ui (snd (handleCreate demoApi (world drafting true)))) = [] /\
   newTaskDetails (ui (snd (handleCreate demoApi (world drafting true)))) = []) /\
  ui (snd (handleCreate demoApi (world drafting false))) = drafting.
Proof.
  split; [|split].
  - exact (proj1 (proj2 (handleCreate_outcomes _ _ demoApi (world draftingBlank true)))
                 eq_refl).
  - refine (proj1 (proj2 (proj2 (handleCreate_outcomes _ _ demoApi (world drafting true))))
                  _ eq_refl).
    discriminate.
  - refine (proj2 (proj2 (proj2 (handleCreate_outcomes _ _ demoApi (world drafting false))))
                  _ eq_refl).
    discriminate.
Defined.

(** The amended C2, server online: card 1 goes from 未着手 to 完了 with
    one update call followed by one reload. *)
Lemma handleDragEnd_update_then_reload_witness :
  calls (snd (handleDragEnd asciiLower demoApi dragToDone (world board0 true))) =
  [UpdateTask 1 (mkPayload (str "Write spec") [] Done); FetchTasks].
Proof.
  refine (handleDragEnd_update_then_reload asciiLower _ _ demoApi
            (world board0 true) dragToDone (mkLocation Done 0) task1
            eq_refl _ eq_refl).
  discriminate.
Defined.

(** C2 fails as stated: the same drag with the server offline meets the
    conditions of the claim, issues the update call, and no reload
    follows it. *)
Lemma handleDragEnd_no_reload_after_rejection :
  let w := world board0 false in
  let w' := snd (handleDragEnd asciiLower demoApi dragToDone w) in
  destination dragToDone = Some (mkLocation Done 0) /\
  droppableId (mkLocation Done 0) <> droppableId (source dragToDone) /\
  find (fun t => eqb (Number_toString (id t)) (draggableId dragToDone))
       (filteredTasks asciiLower (ui w)) = Some task1 /\
  calls w' = [UpdateTask 1 (mkPayload (str "Write spec") [] Done)] /\
  calls w' <>
    calls w ++ [UpdateTask 1 (mkPayload (str "Write spec") [] Done); FetchTasks].
Proof.
  cbv zeta. repeat split; discriminate.
Qed.

(** The rejected update of that drag is thrown out of the handler. *)
Example handleDragEnd_offline_throws :
  fst (handleDragEnd asciiLower demoApi dragToDone (world board0 false)) =
  Thrown Offline.
Proof. reflexivity. Qed.

(** C7: with only 完了 selected, card 1 is in the collection but not in
    the visible subset, and its drag is ignored. *)
Lemma handleDragEnd_unresolved_ignored_witness :
  In task1 (tasks (ui (world boardDone true))) /\
  handleDragEnd asciiLower demoApi dragToDone (world boardDone true) =
  (Returned tt, world boardDone true).
Proof.
  split; [left; reflexivity|].
  exact (handleDragEnd_unresolved_ignored asciiLower _ _ demoApi
           (world boardDone true) dragToDone eq_refl).
Defined.

(** C8: a drop outside the columns and a drop on the source column. *)
Lemma handleDragEnd_noop_witness :
  handleDragEnd asciiLower demoApi dragOutside (world board0 true) =
    (Returned tt, world board0 true) /\
  handleDragEnd asciiLower demoApi dragSameColumn (world board0 true) =
    (Returned tt, world board0 true).
Proof.
  split.
  - exact (handleDragEnd_noop asciiLower _ _ demoApi (world board0 true)
             dragOutside (or_introl eq_refl)).
  - exact (handleDragEnd_noop asciiLower _ _ demoApi (world board0 true)
             dragSameColumn
             (or_intror (ex_intro _ (mkLocation NotStarted 1) (conj eq_refl eq_refl)))).
Defined.

(** C10: switching to the table on the URL [?q=x&view=board] keeps [q]. *)
Lemma clickViewMode_preserves_other_params_witness :
  getAll (str "q") (search (snd (clickViewMode (str "table") (world board0 true)))) =
    [str "x"] /\
  get (str "q") (search (snd (clickViewMode (str "table") (world board0 true)))) =
    Some (str "x").
Proof.
  refine (clickViewMode_preserves_other_params _ _
            (world board0 true) (str "table") (str "q") _).
  discriminate.
Defined.

(** The example of the specification: after the switch to the board the
    URL reads [view=board], and a mount on [view=table] starts on the
    table. *)
Example view_roundtrip :
  get (str "view")
      (search (snd (clickViewMode (str "board") (world (mount []) true)))) =
    Some (str "board") /\
  viewMode (mount [(str "view", str "table")]) = str "table".
Proof. split; reflexivity. Qed.

(** C6 on the URL [?view=list]: the unrecognized value becomes the view
    mode as it is, and the render, which tests for "table" only, shows
    the board. *)
Lemma mount_unrecognized_view :
  viewMode (mount [(str "view", str "list")]) = str "list" /\
  viewMode (mount [(str "view", str "list")]) <> str "table" /\
  viewMode (mount [(str "view", str "list")]) <> str "board" /\
  layout (mount [(str "view", str "list")]) = BoardLayout.
Proof. repeat split; discriminate. Qed.

(** The part of C6 that holds: no parameter, or an empty one, gives the
    table. *)
Example mount_default_view :
  viewMode (mount []) = str "table" /\
  viewMode (mount [(str "q", str "x")]) = str "table" /\
  viewMode (mount [(str "view", [])]) = str "table" /\
  viewMode (mount [(str "view", str "board")]) = str "board".
Proof. repeat split. Qed.

(** *** Runs for the further properties *)

(** X1 on the selection [完了]: unticking 完了 leaves 未着手 as it was. *)
Lemma toggleStatus_membership_witness :
  (In Done (selectedStatuses (toggleStatus Done boardDone)) <->
   ~ In Done (selectedStatuses boardDone)) /\
  (In NotStarted (selectedStatuses (toggleStatus Done boardDone)) <->
   In NotStarted (selectedStatuses boardDone)).
Proof.
  split.
  - exact (proj1 (toggleStatus_membership Done boardDone)).
  - refine (proj2 (toggleStatus_membership Done boardDone) NotStarted _).
    discriminate.
Defined.

(** X4 with all three statuses ticked: the label reads "すべて" and
    both tasks show. *)
Lemma statusFilterLabel_all_witness :
  (statusFilterLabel boardFull = [12377; 12409; 12390] <->
   (forall st, selectedStatuses boardFull = [] \/ In st (selectedStatuses boardFull))) /\
  (statusFilterLabel boardFull = [12377; 12409; 12390] ->
   filteredTasks asciiLower boardFull =
   filteredTasks asciiLower (setSelectedStatuses [] boardFull)).
Proof.
  refine (statusFilterLabel_all asciiLower boardFull _).
  repeat constructor; simpl; intuition discriminate.
Defined.

Example statusFilterLabel_count :
  statusFilterLabel boardDone = str "1" ++ [20214; 36984; 25246; 20013].
Proof. reflexivity. Qed.

(** X6 at the offline drag. *)
Lemma step_throws_only_on_drag_witness :
  exists result, DragEnd dragToDone = DragEnd result.
Proof.
  exact (step_throws_only_on_drag asciiLower _ _ demoApi (DragEnd dragToDone)
           (world board0 false) Offline eq_refl).
Defined.

(** X10 at the online server. *)
Lemma mutation_success_reloads_witness :
  (calls (snd (handleCreate demoApi (world drafting true))) =
     [CreateTask (mkPayload (str "Review") (str "soon") NotStarted); FetchTasks] /\
   tasks (ui (snd (handleCreate demoApi (world drafting true)))) =
     [task1; task2; mkTask 3 (str "Review") (str "soon") NotStarted []]) /\
  (calls (snd (handleStatusChange demoApi task1 InProgress (world board0 true))) =
     [UpdateTask 1 (mkPayload (str "Write spec") [] InProgress); FetchTasks] /\
   tasks (ui (snd (handleStatusChange demoApi task1 InProgress (world board0 true)))) =
     [mkTask 1 (str "Write spec") [] InProgress []; task2]) /\
  (calls (snd (handleDelete demoApi 2 (world board0 true))) =
     [DeleteTask 2; FetchTasks] /\
   tasks (ui (snd (handleDelete demoApi 2 (world board0 true)))) = [task1]).
Proof.
  split; [|split].
  - exact (proj1 (mutation_success_reloads _ _ demoApi (world drafting true))
                 eq_refl eq_refl).
  - exact (proj1 (proj2 (mutation_success_reloads _ _ demoApi (world board0 true)))
                 task1 InProgress eq_refl).
  - exact (proj2 (proj2 (mutation_success_reloads _ _ demoApi (world board0 true)))
                 2%Z eq_refl).
Defined.

(** X11 at the online server. *)
Lemma handleDragEnd_as_status_change_witness :
  handleDragEnd asciiLower demoApi dragToDone (world board0 true) =
  handleStatusChange demoApi task1 Done (world board0 true).
Proof.
  refine (handleDragEnd_as_status_change asciiLower _ _ demoApi
            (world board0 true) dragToDone (mkLocation Done 0) task1
            eq_refl _ eq_refl eq_refl).
  discriminate.
Defined.

(** X12 on the draft "  Review  ". *)
Lemma handleCreate_payload_witness :
  let p := mkPayload (str "Review") (str "soon") NotStarted in
  In (CreateTask p) (calls (world drafting true)) \/
  (p_name p <> [] /\ trim (p_name p) = p_name p /\
   trim (p_details p) = p_details p /\ p_status p = NotStarted).
Proof.
  refine (handleCreate_payload _ _ demoApi (world drafting true)
            (mkPayload (str "Review") (str "soon") NotStarted) _).
  left. reflexivity.
Defined.

(** X13 on card 1 of the unfiltered board. *)
Lemma handleDragEnd_updates_dragged_card_witness :
  exists rest,
    calls (snd (handleDragEnd asciiLower demoApi dragToDone (world board0 true))) =
    calls (world board0 true) ++
    UpdateTask 1 (mkPayload (str "Write spec") [] Done) :: rest.
Proof.
  refine (handleDragEnd_updates_dragged_card asciiLower _ _ demoApi
            (world board0 true) dragToDone (mkLocation Done 0) task1
            _ _ eq_refl eq_refl _).
  - left. reflexivity.
  - repeat constructor; simpl; intuition discriminate.
  - discriminate.
Defined.

(** X14 for the table button. *)
Lemma view_survives_reload_witness :
  getAll (str "view") (search (snd (clickViewMode (str "table") (world board0 true)))) =
    [str "table"] /\
  viewMode (mount (search (snd (clickViewMode (str "table") (world board0 true))))) =
    str "table".
Proof.
  refine (view_survives_reload _ _ (world board0 true) (str "table") _).
  discriminate.
Defined.

(** X16 on the URL [?q=x]: the parameter [q] is kept. *)
Lemma mounted_world_witness :
  getAll (str "q") (search (mounted demoApi [(str "q", str "x")] (mkDemo [task1] true))) =
  [str "x"].
Proof.
  refine (proj2 (proj2 (proj2 (proj2
            (mounted_world _ _ demoApi [(str "q", str "x")] (mkDemo [task1] true)))))
            (str "q") _).
  discriminate.
Defined.

Example mounted_run :
  let w := mounted demoApi [(str "q", str "x")] (mkDemo [task1] true) in
  tasks (ui w) = [task1] /\
  search w = [(str "q", str "x"); (str "view", str "table")].
Proof. split; reflexivity. Qed.

(** X18 at the offline server. *)
Lemma failures_logged_witness :
  console (snd (loadTasks demoApi (world board0 false))) = [(FetchFailed, Offline)] /\
  console (snd (handleCreate demoApi (world drafting false))) = [(CreateFailed, Offline)] /\
  console (snd (handleStatusChange demoApi task1 Done (world board0 false))) =
    [(StatusUpdateFailed, Offline)] /\
  console (snd (handleDelete demoApi 1 (world board0 false))) = [(DeleteFailed, Offline)].
Proof.
  split; [|split; [|split]].
  - exact (proj1 (failures_logged _ _ demoApi (world board0 false) Offline
                    (mkDemo [task1; task2] false)) eq_refl).
  - exact (proj1 (proj2 (failures_logged _ _ demoApi (world drafting false) Offline
                           (mkDemo [task1; task2] false))) eq_refl eq_refl).
  - exact (proj1 (proj2 (proj2 (failures_logged _ _ demoApi (world board0 false) Offline
                                  (mkDemo [task1; task2] false)))) task1 Done eq_refl).
  - exact (proj2 (proj2 (proj2 (failures_logged _ _ demoApi (world board0 false) Offline
                                  (mkDemo [task1; task2] false)))) 1%Z eq_refl).
Defined.

(** X19: typing "  Review  " and "soon", then Enter. *)
Lemma draft_session_creates_witness :
  exists rest,
    calls (run asciiLower demoApi
             [ClickAddRow; ChangeNewTaskName (str "  Review  ");
              ChangeNewTaskDetails (str "soon"); KeyDown (str "Enter")]
             (world board0 true)) =
    calls (world board0 true) ++
    CreateTask (mkPayload (trim (str "  Review  ")) (trim (str "soon")) NotStarted) :: rest.
Proof.
  exact (draft_session_creates asciiLower _ _ demoApi (world board0 true)
           (str "  Review  ") (str "soon") eq_refl).
Defined.
